(** * Homeric agent: transcript store, lookup tool and tool-call resolver

    A shallow embedding of [src/agent.py].  The hosted model session and
    the encyclopedia provider are external collaborators: they are taken
    as arbitrary functions over an opaque [World], so every theorem holds
    for every behaviour of the two providers.  The agent code itself
    (exception handling, the bounded loop, the transcript updates) is
    transcribed statement by statement into a small state-and-exception
    monad that also records the calls made to the collaborators. *)

From Stdlib Require Import String Ascii List Arith Lia Bool.
From stdpp Require Import base option list strings gmap.
From Equations Require Import Equations.
Import ListNotations.

Local Open Scope string_scope.
Local Open Scope list_scope.

(** ** Exceptions *)

(** The exception classes the code distinguishes, each carrying the text
    that [str(e)] yields.  All of them are subclasses of [Exception].
    [ValidationError] is the one of the [Message] model, a subclass of
    [ValueError]; [OtherValueError] stands for any other subclass of
    [ValueError] (a decoding error, say), and [OtherError] for any other
    subclass of [Exception] a provider may raise (network, parsing, rate
    limit, service fault). *)
Inductive Exn : Type :=
| DisambiguationError (options : list string) (msg : string)
| PageError (msg : string)
| ValueError (msg : string)
| IndexError (msg : string)
| AttributeError (msg : string)
| ValidationError (msg : string)
| OtherError (msg : string)
| OtherValueError (msg : string).

Definition str (e : Exn) : string :=
  match e with
  | DisambiguationError _ msg => msg
  | PageError msg => msg
  | ValueError msg => msg
  | IndexError msg => msg
  | AttributeError msg => msg
  | ValidationError msg => msg
  | OtherError msg => msg
  | OtherValueError msg => msg
  end.

(** What [except ValueError] catches: the class and its subclasses. *)
Definition is_ValueError (e : Exn) : bool :=
  match e with
  | ValueError _ | ValidationError _ | OtherValueError _ => true
  | _ => false
  end.

(** A call either returns a value or raises. *)
Inductive Outcome (A : Type) : Type :=
| Ok (a : A)
| Raise (e : Exn).
Arguments Ok {A} a.
Arguments Raise {A} e.

Definition succeeded {A : Type} (o : Outcome A) : bool :=
  match o with Ok _ => true | Raise _ => false end.

(** The number of calls that returned, among the outcomes of a sequence
    of calls. *)
Definition successes {A : Type} (outs : list (Outcome A)) : nat :=
  length (List.filter succeeded outs).

(** ** Data model *)

(** [class Message(BaseModel)]: [role: Literal["user", "model"]],
    [content: str]. *)
Record Message : Type := mkMessage {
  role : string;
  content : string
}.

(** [class ConversationHistory(BaseModel)]: [messages: List[Message]]. *)
Record ConversationHistory : Type := mkConversationHistory {
  messages : list Message
}.

(** One record of the exchange format, [{"role": ..., "parts": [...]}]. *)
Record HistoryEntry : Type := mkHistoryEntry {
  entry_role : string;
  entry_parts : list string
}.

(** The [function_call] of a response part: a name and an argument
    mapping.  The declared tool schema has one string parameter, so the
    values of the mapping are strings. *)
Record FunctionCall : Type := mkFunctionCall {
  name : string;
  args : gmap string string
}.

(** A content part of a response, inspected by attribute: [None] is an
    absent attribute ([hasattr] false), [Some] the attribute's value.  A
    part that is not a tool call has an absent [function_call] or one
    whose [name] is empty. *)
Record Part : Type := mkPart {
  function_call : option FunctionCall;
  text : option string
}.

(** A candidate, reduced to [candidate.content.parts]. *)
Record Candidate : Type := mkCandidate {
  parts : list Part
}.

(** A response of the model session: its candidates, and what the
    [.text] property does when it is read (a string, or an exception). *)
Record Response : Type := mkResponse {
  candidates : list Candidate;
  response_text : Outcome string
}.

(** What [chat] passes to [send_message]: the user's text, or a content
    holding one [FunctionResponse(name, response={"result": ...})]. *)
Inductive Outgoing : Type :=
| UserText (user_message : string)
| FunctionResponse (function_name : string) (result : string).

(** Calls that leave the agent, and the entry of a tool invocation. *)
Inductive Event : Type :=
| WikipediaSearch (query : string)
| WikipediaSummary (title : string)
| StartChat (history : list HistoryEntry)
| SendMessage (msg : Outgoing) (result : Outcome Response)
| ToolCall (function_name : string) (function_args : gmap string string).

Definition is_tool_call (e : Event) : bool :=
  match e with ToolCall _ _ => true | _ => false end.

Definition is_start_chat (e : Event) : bool :=
  match e with StartChat _ => true | _ => false end.

(** An event of the encyclopedia provider. *)
Definition is_wiki (e : Event) : bool :=
  match e with
  | WikipediaSearch _ | WikipediaSummary _ => true
  | _ => false
  end.

Definition is_send (e : Event) : bool :=
  match e with SendMessage _ _ => true | _ => false end.

Definition is_summary (e : Event) : bool :=
  match e with WikipediaSummary _ => true | _ => false end.

(** ** String helpers *)

Definition newline : string := String (ascii_of_nat 10) EmptyString.

(** [sep.join(l)] *)
Fixpoint join (sep : string) (l : list string) : string :=
  match l with
  | [] => ""
  | [x] => x
  | x :: rest => x +:+ sep +:+ join sep rest
  end.

(** Truthiness of a Python string. *)
Definition truthy (s : string) : bool :=
  match s with EmptyString => false | String _ _ => true end.

Definition max_iterations : nat := 5.

(** ** Observations on transcripts and event lists *)

Definition count_events (p : Event -> bool) (evs : list Event) : nat :=
  length (List.filter p evs).

(** The number of tool invocations among the events. *)
Definition tool_calls (evs : list Event) : nat :=
  count_events is_tool_call evs.

(** The roles alternate, beginning with "user" when [user_turn] holds and
    with "model" otherwise. *)
Fixpoint alternates (user_turn : bool) (l : list Message) : bool :=
  match l with
  | [] => true
  | m :: rest =>
      String.eqb (role m) (if user_turn then "user" else "model")
      && alternates (negb user_turn) rest
  end.

(** A part that contributes to the fallback text:
    [hasattr(part, 'text') and part.text]. *)
Definition carries_text (p : Part) : bool :=
  match text p with
  | Some t => truthy t
  | None => false
  end.

(** The five texts the lookup tool produces for a query. *)
Inductive lookup_text (query : string) : string -> Prop :=
| text_no_results :
    lookup_text query ("No results found for '" +:+ query +:+ "' on Wikipedia.")
| text_article (title summary : string) :
    lookup_text query ("Wikipedia article on '" +:+ title +:+ "':"
                       +:+ newline +:+ newline +:+ summary)
| text_multiple (titles : list string) :
    lookup_text query ("Found multiple articles. Top results: "
                       +:+ join ", " titles)
| text_no_page :
    lookup_text query ("Could not retrieve page for '" +:+ query +:+ "'.")
| text_error (e : Exn) :
    lookup_text query ("Error searching Wikipedia: " +:+ str e).

(** What the loop of [chat] reads off a response: the tool call of the
    first part of the first candidate, if that part has a [function_call]
    with a non-empty name; [IndexError] when there is no candidate. *)
Definition requested_tool (response : Response) : Outcome (option FunctionCall) :=
  match candidates response with
  | [] => Raise (IndexError "list index out of range")
  | c :: _ =>
      match parts c with
      | [] => Ok None
      | first_part :: _ =>
          match function_call first_part with
          | None => Ok None
          | Some fc => if truthy (name fc) then Ok (Some fc) else Ok None
          end
      end
  end.

(** The texts of the parts, one after the other; a part without the
    attribute counts as empty. *)
Definition part_texts (ps : list Part) : string :=
  String.concat "" (map (fun p => default "" (text p)) ps).

(** The messages that a sequence of calls leaves behind: for each call
    that returned, the user's text and the text returned. *)
Fixpoint turns (user_messages : list string) (outs : list (Outcome string))
  : list Message :=
  match user_messages, outs with
  | m :: ms, Ok final_text :: os =>
      mkMessage "user" m :: mkMessage "model" final_text :: turns ms os
  | _ :: ms, Raise _ :: os => turns ms os
  | _, _ => []
  end.

(** A credential that is present and not the empty string. *)
Definition usable (key : option string) : bool :=
  match key with
  | Some k => truthy k
  | None => false
  end.

Section Agent.

(** ** External collaborators *)

(** The state of everything outside the process. *)
Variable World : Type.
(** The state of a model session object. *)
Variable Session : Type.

(** [wikipedia.search(query, results=3)] *)
Variable wikipedia_search : string -> World -> Outcome (list string) * World.
(** [wikipedia.summary(title, sentences=5, auto_suggest=False)] *)
Variable wikipedia_summary : string -> World -> Outcome string * World.
(** [self.model.start_chat(history=...)] *)
Variable start_chat : list HistoryEntry -> Session.
(** [chat_session.send_message(content)]: the session object is mutated
    whether or not the call raises. *)
Variable send_message :
  Outgoing -> Session -> World -> Outcome Response * Session * World.

(** ** Machine state and monad *)

(** The agent's two mutable attributes, and the outside world. *)
Record State : Type := mkState {
  conversation : ConversationHistory;
  chat_session : option Session;
  world : World
}.

Definition set_conversation (st : State) (c : ConversationHistory) : State :=
  mkState c (chat_session st) (world st).
Definition set_chat_session (st : State) (s : option Session) : State :=
  mkState (conversation st) s (world st).
Definition set_world (st : State) (w : World) : State :=
  mkState (conversation st) (chat_session st) w.

(** The result of running a computation: its outcome, the state it
    leaves, and the events it produced, oldest first. *)
Record Run (A : Type) : Type := mkRun {
  outcome : Outcome A;
  final : State;
  events : list Event
}.
Arguments mkRun {A} _ _ _.
Arguments outcome {A} _.
Arguments final {A} _.
Arguments events {A} _.

Definition M (A : Type) : Type := State -> Run A.

Definition ret {A : Type} (a : A) : M A :=
  fun st => mkRun (Ok a) st [].

Definition raise {A : Type} (e : Exn) : M A :=
  fun st => mkRun (Raise e) st [].

Definition bind {A B : Type} (m : M A) (k : A -> M B) : M B :=
  fun st =>
    match m st with
    | mkRun (Ok a) st1 evs1 =>
        match k a st1 with
        | mkRun o st2 evs2 => mkRun o st2 (evs1 ++ evs2)
        end
    | mkRun (Raise e) st1 evs1 => mkRun (Raise e) st1 evs1
    end.

(** [try: m except ...: handler e]; a handler re-raises what its clauses
    do not match. *)
Definition try_except {A : Type} (m : M A) (handler : Exn -> M A) : M A :=
  fun st =>
    match m st with
    | mkRun (Ok a) st1 evs1 => mkRun (Ok a) st1 evs1
    | mkRun (Raise e) st1 evs1 =>
        match handler e st1 with
        | mkRun o st2 evs2 => mkRun o st2 (evs1 ++ evs2)
        end
    end.

Definition emit (e : Event) : M unit :=
  fun st => mkRun (Ok tt) st [e].

Notation "x <- c1 ;; c2" := (bind c1 (fun x => c2))
  (at level 100, c1 at next level, right associativity).
Notation "c1 ;; c2" := (bind c1 (fun _ => c2))
  (at level 100, right associativity).

(** The provider calls, lifted into the monad. *)
Definition call_search (query : string) : M (list string) :=
  fun st =>
    let '(r, w) := wikipedia_search query (world st) in
    mkRun r (set_world st w) [WikipediaSearch query].

Definition call_summary (title : string) : M string :=
  fun st =>
    let '(r, w) := wikipedia_summary title (world st) in
    mkRun r (set_world st w) [WikipediaSummary title].

(** [self.chat_session.send_message(content)] *)
Definition session_send (msg : Outgoing) : M Response :=
  fun st =>
    match chat_session st with
    | None =>
        mkRun (Raise (AttributeError "'NoneType' object has no attribute 'send_message'"))
              st []
    | Some s =>
        let '(r, s', w) := send_message msg s (world st) in
        mkRun r (mkState (conversation st) (Some s') w) [SendMessage msg r]
    end.

(** [l[0]] *)
Definition first {A : Type} (l : list A) : M A :=
  match l !! 0%nat with
  | Some x => ret x
  | None => raise (IndexError "list index out of range")
  end.

(** ** Transcript store *)

(** [Message(role=role, content=content)]: the model validates [role]
    against [Literal["user", "model"]]. *)
Definition Message_new (role content : string) : Outcome Message :=
  if String.eqb role "user" || String.eqb role "model"
  then Ok (mkMessage role content)
  else Raise (ValidationError "1 validation error for Message").

(** [ConversationHistory()] *)
Definition ConversationHistory_new : ConversationHistory :=
  mkConversationHistory [].

(** [ConversationHistory.add_message] *)
Definition add_message (role content : string) : M unit :=
  fun st =>
    match Message_new role content with
    | Ok m =>
        mkRun (Ok tt)
          (set_conversation st
             (mkConversationHistory (messages (conversation st) ++ [m])))
          []
    | Raise e => mkRun (Raise e) st []
    end.

(** [ConversationHistory.get_gemini_history] *)
Definition get_gemini_history (c : ConversationHistory) : list HistoryEntry :=
  map (fun msg => mkHistoryEntry (role msg) [content msg]) (messages c).

(** ** Lookup tool *)

(** [HomericAgent.search_wikipedia] *)
Definition search_wikipedia (query : string) : M string :=
  try_except
    (search_results <- call_search query ;;
     match search_results with
     | [] => ret ("No results found for '" +:+ query +:+ "' on Wikipedia.")
     | top :: _ =>
         try_except
           (summary <- call_summary top ;;
            ret ("Wikipedia article on '" +:+ top +:+ "':"
                 +:+ newline +:+ newline +:+ summary))
           (fun e =>
              match e with
              | DisambiguationError options _ =>
                  try_except
                    (option0 <- first options ;;
                     summary <- call_summary option0 ;;
                     ret ("Wikipedia article on '" +:+ option0 +:+ "':"
                          +:+ newline +:+ newline +:+ summary))
                    (fun _ =>
                       ret ("Found multiple articles. Top results: "
                            +:+ join ", " (take 3 search_results)))
              | PageError _ =>
                  ret ("Could not retrieve page for '" +:+ query +:+ "'.")
              | _ => raise e
              end)
     end)
    (fun e => ret ("Error searching Wikipedia: " +:+ str e)).

(** [HomericAgent.process_tool_call] *)
Definition process_tool_call
    (function_name : string) (function_args : gmap string string) : M string :=
  emit (ToolCall function_name function_args) ;;
  if String.eqb function_name "search_wikipedia"
  then
    let query := default "" (function_args !! "query") in
    search_wikipedia query
  else ret ("Unknown function: " +:+ function_name).

(** ** Conversational agent *)

(** [HomericAgent.__init__], reduced to the credential check and the two
    attributes it initialises: [api_key or os.getenv("GEMINI_API_KEY")]. *)
Definition HomericAgent_new
    (api_key getenv : option string) (w : World) : Outcome State :=
  let key :=
    match api_key with
    | Some k => if truthy k then Some k else getenv
    | None => getenv
    end in
  match key with
  | Some k =>
      if truthy k
      then Ok (mkState ConversationHistory_new None w)
      else Raise (ValueError "GEMINI_API_KEY environment variable must be set")
  | None => Raise (ValueError "GEMINI_API_KEY environment variable must be set")
  end.

(** [if self.chat_session is None: self.chat_session = start_chat(...)] *)
Definition ensure_session : M unit :=
  fun st =>
    match chat_session st with
    | None =>
        let history := get_gemini_history (conversation st) in
        mkRun (Ok tt) (set_chat_session st (Some (start_chat history)))
              [StartChat history]
    | Some _ => mkRun (Ok tt) st []
    end.

(** The session [chat] talks to: the one the agent holds, or the one
    [start_chat] makes from the transcript when it holds none. *)
Definition session_in_use (st : State) : Session :=
  match chat_session st with
  | Some s => s
  | None => start_chat (get_gemini_history (conversation st))
  end.

(** [response.candidates[0].content.parts] *)
Definition first_parts (response : Response) : M (list Part) :=
  c <- first (candidates response) ;;
  ret (parts c).

(** The [while iteration < max_iterations] loop of [chat], entered with
    the counter at [iteration] and the held [response]. *)
Equations? while_loop (iteration : nat) (response : Response) : M Response
  by wf (max_iterations - iteration) lt :=
  while_loop iteration response with lt_dec iteration max_iterations := {
    | right _ => ret response
    | left Hlt =>
        ps <- first_parts response ;;
        match ps with
        | [] => ret response
        | first_part :: _ =>
            match function_call first_part with
            | None => ret response
            | Some fc =>
                if truthy (name fc)
                then
                  function_result <- process_tool_call (name fc) (args fc) ;;
                  response' <- session_send
                                 (FunctionResponse (name fc) function_result) ;;
                  while_loop (iteration + 1) response'
                else ret response
            end
        end }.
Proof. lia. Qed.

(** The text accumulated by the fallback [for part in ...] loop. *)
Definition concat_text (ps : list Part) : string :=
  fold_left
    (fun final_text part =>
       match text part with
       | Some t => if truthy t then final_text +:+ t else final_text
       | None => final_text
       end)
    ps "".

(** Final text extraction: [response.text], and on [ValueError] the
    concatenation of the text-bearing parts. *)
Definition extract_final_text (response : Response) : M string :=
  match response_text response with
  | Ok t => ret t
  | Raise e =>
      if is_ValueError e
      then
        ps <- first_parts response ;;
        ret (concat_text ps)
      else raise e
  end.

(** The first half of [chat]: session set-up, the first exchange and the
    tool-call loop; it yields the response held when the loop exits. *)
Definition resolve (user_message : string) : M Response :=
  ensure_session ;;
  response <- session_send (UserText user_message) ;;
  while_loop 0 response.

(** [HomericAgent.chat] *)
Definition chat (user_message : string) : M string :=
  response <- resolve user_message ;;
  final_text <- extract_final_text response ;;
  add_message "user" user_message ;;
  add_message "model" final_text ;;
  ret final_text.

(** A computation that leaves the agent's attributes alone and calls
    nothing but the encyclopedia provider. *)
Definition wiki_only {A : Type} (m : M A) : Prop :=
  forall st,
    conversation (final (m st)) = conversation st
    /\ chat_session (final (m st)) = chat_session st
    /\ forallb is_wiki (events (m st)) = true.

(** Whenever the computation returns, what it returns satisfies [Q]. *)
Definition returns_only {A : Type} (Q : A -> Prop) (m : M A) : Prop :=
  forall st a, outcome (m st) = Ok a -> Q a.

(** [HomericAgent.reset_conversation] *)
Definition reset_conversation : M unit :=
  fun st => mkRun (Ok tt) (mkState ConversationHistory_new None (world st)) [].

(** A caller that submits the given user messages one after the other,
    catching what a call raises, as the presentation layer does. *)
Fixpoint chat_all (user_messages : list string) (st : State)
  : list (Outcome string) * State :=
  match user_messages with
  | [] => ([], st)
  | m :: rest =>
      let r := chat m st in
      let '(outs, st') := chat_all rest (final r) in
      (outcome r :: outs, st')
  end.

End Agent.

Arguments conversation {World Session} _.
Arguments chat_session {World Session} _.
Arguments world {World Session} _.
Arguments mkState {World Session} _ _ _.
Arguments outcome {World Session A} _.
Arguments final {World Session A} _.
Arguments events {World Session A} _.
Arguments mkRun {World Session A} _ _ _.
Arguments ret {World Session A} _ _.
Arguments raise {World Session A} _ _.
Arguments bind {World Session A B} _ _ _.
Arguments try_except {World Session A} _ _ _.
Arguments emit {World Session} _ _.
Arguments first {World Session A} _ _.

(** ** Scripted collaborators

    Concrete providers on which the definitions can be run: the world is
    the list of outcomes the model session will produce next, and a
    session object remembers the history it was seeded with. *)
Module Scripted.

Definition World : Type := list (Outcome Response).
Definition Session : Type := list HistoryEntry.

Definition plain (t : string) : Response :=
  mkResponse [mkCandidate [mkPart None (Some t)]] (Ok t).

Definition tool_request (n : string) (a : gmap string string) : Response :=
  mkResponse [mkCandidate [mkPart (Some (mkFunctionCall n a)) None]]
             (Raise (ValueError "Could not convert part.function_call to text.")).

Definition no_text : Response :=
  mkResponse [mkCandidate []] (Raise (ValueError "no parts")).

Definition wikipedia_search (query : string) (w : World)
  : Outcome (list string) * World :=
  if String.eqb query "" then (Ok [], w)
  else if String.eqb query "offline" then (Raise (OtherError "timed out"), w)
  else (Ok [query; "Iliad"; "Odyssey"; "Troy"], w).

Definition wikipedia_summary (title : string) (w : World)
  : Outcome string * World :=
  if String.eqb title "Mercury"
  then (Raise (DisambiguationError ["Mercury (planet)"; "Mercury (element)"]
                 "Mercury may refer to"), w)
  else if String.eqb title "Ajax"
  then (Raise (DisambiguationError ["Ajax (missing)"] "Ajax may refer to"), w)
  else if String.eqb title "Ajax (missing)" then (Raise (PageError "no page"), w)
  else if String.eqb title "Atlantis" then (Raise (PageError "no page"), w)
  else (Ok ("About " +:+ title +:+ "."), w).

Definition start_chat (history : list HistoryEntry) : Session := history.

Definition send_message (msg : Outgoing) (s : Session) (w : World)
  : Outcome Response * Session * World :=
  match w with
  | [] => (Ok (plain "Sing, O Muse."), s, [])
  | r :: w' => (r, s, w')
  end.

Definition fresh (script : World) : State World Session :=
  mkState ConversationHistory_new None script.

Definition search := search_wikipedia World Session wikipedia_search wikipedia_summary.
Definition tool := process_tool_call World Session wikipedia_search wikipedia_summary.
Definition run_chat :=
  chat World Session wikipedia_search wikipedia_summary start_chat send_message.
Definition run_chat_all :=
  chat_all World Session wikipedia_search wikipedia_summary start_chat
    send_message.
Definition append := add_message World Session.

Definition achilles : gmap string string := {["query" := "Achilles"]}.

(** A model that asks for the tool on every response. *)
Definition always_tool : World :=
  repeat (Ok (tool_request "search_wikipedia" achilles)) 8.

(** A session that fails when the tool result is submitted. *)
Definition failing_submission : World :=
  [Ok (tool_request "search_wikipedia" achilles);
   Raise (OtherError "503 Service Unavailable")].

(** What the lookup tool returns for "Achilles" with these providers. *)
Definition achilles_article : string :=
  "Wikipedia article on 'Achilles':" +:+ newline +:+ newline
  +:+ "About Achilles.".

(** A turn with a tool call, a turn that fails, and a plain turn. *)
Definition three_calls : World :=
  [Ok (tool_request "search_wikipedia" achilles);
   Ok (plain "O mortal, hear of swift-footed Achilles...");
   Raise (OtherError "503 Service Unavailable");
   Ok (plain "Sing, O Muse, of Hector.")].

End Scripted.

(** ** Further responses and providers for running the definitions *)
Module Cases.

(** An agent that already holds a session, over the scripted world. *)
Definition established (script : Scripted.World)
  : State Scripted.World Scripted.Session :=
  mkState ConversationHistory_new (Some []) script.

(** A text part followed by a tool call. *)
Definition answer_then_request : Response :=
  mkResponse
    [mkCandidate
       [mkPart None (Some "O mortal.");
        mkPart (Some (mkFunctionCall "search_wikipedia" Scripted.achilles))
               None]]
    (Ok "O mortal.").

(** A response without candidates. *)
Definition blocked : Response :=
  mkResponse [] (Raise (ValueError "no candidates")).

(** Two text parts around a part that is a tool call; [.text] raises. *)
Definition two_texts : Response :=
  mkResponse
    [mkCandidate
       [mkPart None (Some "Sing, ");
        mkPart (Some (mkFunctionCall "search_wikipedia" Scripted.achilles))
               None;
        mkPart None (Some "O Muse.")]]
    (Raise (ValueError "Could not convert part.function_call to text.")).

(** A response whose [.text] raises something else than [ValueError]. *)
Definition broken_text : Response :=
  mkResponse [mkCandidate [mkPart None (Some "O mortal.")]]
             (Raise (AttributeError "text")).

(** A summary provider that is rate limited. *)
Definition limited_summary (title : string) (w : Scripted.World)
  : Outcome string * Scripted.World :=
  (Raise (OtherError "429 Too Many Requests"), w).

Definition limited_search :=
  search_wikipedia Scripted.World Scripted.Session
    Scripted.wikipedia_search limited_summary.

End Cases.


(** * Properties *)

Section Properties.

Context {World Session : Type}.
Context (wikipedia_search : string -> World -> Outcome (list string) * World).
Context (wikipedia_summary : string -> World -> Outcome string * World).
Context (start_chat : list HistoryEntry -> Session).
Context (send_message :
  Outgoing -> Session -> World -> Outcome Response * Session * World).

Local Abbreviation search_wikipedia' :=
  (search_wikipedia World Session wikipedia_search wikipedia_summary).
Local Abbreviation process_tool_call' :=
  (process_tool_call World Session wikipedia_search wikipedia_summary).
Local Abbreviation session_send' := (session_send World Session send_message).
Local Abbreviation while_loop' :=
  (while_loop World Session wikipedia_search wikipedia_summary send_message).
Local Abbreviation resolve' :=
  (resolve World Session wikipedia_search wikipedia_summary start_chat
     send_message).
Local Abbreviation chat' :=
  (chat World Session wikipedia_search wikipedia_summary start_chat
     send_message).
Local Abbreviation chat_all' :=
  (chat_all World Session wikipedia_search wikipedia_summary start_chat
     send_message).
Local Abbreviation add_message' := (add_message World Session).
Local Abbreviation reset_conversation' := (reset_conversation World Session).
Local Abbreviation extract_final_text' := (extract_final_text World Session).

(** *** The monad *)

Lemma bind_run {A B : Type} (m : M World Session A)
    (k : A -> M World Session B) (st : State World Session) :
  bind m k st =
    match outcome (m st) with
    | Ok a =>
        mkRun (outcome (k a (final (m st)))) (final (k a (final (m st))))
              (events (m st) ++ events (k a (final (m st))))
    | Raise e => mkRun (Raise e) (final (m st)) (events (m st))
    end.
Proof.
  unfold bind. destruct (m st) as [[a|e] st1 evs1]; simpl; [|reflexivity].
  destruct (k a st1); reflexivity.
Qed.

Lemma bind_ok {A B : Type} (m : M World Session A) (k : A -> M World Session B)
    (st : State World Session) (a : A) :
  outcome (m st) = Ok a ->
  bind m k st =
    mkRun (outcome (k a (final (m st)))) (final (k a (final (m st))))
          (events (m st) ++ events (k a (final (m st)))).
Proof. intros E. rewrite bind_run, E. reflexivity. Qed.

Lemma bind_raise {A B : Type} (m : M World Session A)
    (k : A -> M World Session B) (st : State World Session) (e : Exn) :
  outcome (m st) = Raise e ->
  bind m k st = mkRun (Raise e) (final (m st)) (events (m st)).
Proof. intros E. rewrite bind_run, E. reflexivity. Qed.

Lemma try_except_run {A : Type} (m : M World Session A)
    (handler : Exn -> M World Session A) (st : State World Session) :
  try_except m handler st =
    match outcome (m st) with
    | Ok a => m st
    | Raise e =>
        mkRun (outcome (handler e (final (m st))))
              (final (handler e (final (m st))))
              (events (m st) ++ events (handler e (final (m st))))
    end.
Proof.
  unfold try_except. destruct (m st) as [[a|e] st1 evs1]; simpl; [reflexivity|].
  destruct (handler e st1); reflexivity.
Qed.

Lemma run_eta {A : Type} (r : Run World Session A) :
  mkRun (outcome r) (final r) (events r) = r.
Proof. destruct r; reflexivity. Qed.

(** *** Computations that only talk to the encyclopedia *)

Lemma wiki_only_ret {A : Type} (a : A) : wiki_only World Session (ret a).
Proof. intros st. repeat split. Qed.

Lemma wiki_only_raise {A : Type} (e : Exn) :
  wiki_only World Session (@raise World Session A e).
Proof. intros st. repeat split. Qed.

Lemma wiki_only_bind {A B : Type} (m : M World Session A)
    (k : A -> M World Session B) :
  wiki_only World Session m ->
  (forall a, wiki_only World Session (k a)) ->
  wiki_only World Session (bind m k).
Proof.
  intros Hm Hk st. rewrite bind_run.
  destruct (Hm st) as (Hc & Hs & Hev).
  destruct (outcome (m st)) as [a|e]; simpl; [|auto].
  destruct (Hk a (final (m st))) as (Hc' & Hs' & Hev').
  rewrite Hc', Hs', forallb_app, Hev, Hev'. auto.
Qed.

Lemma wiki_only_try_except {A : Type} (m : M World Session A)
    (handler : Exn -> M World Session A) :
  wiki_only World Session m ->
  (forall e, wiki_only World Session (handler e)) ->
  wiki_only World Session (try_except m handler).
Proof.
  intros Hm Hh st. rewrite try_except_run.
  destruct (Hm st) as (Hc & Hs & Hev).
  destruct (outcome (m st)) as [a|e]; simpl; [auto|].
  destruct (Hh e (final (m st))) as (Hc' & Hs' & Hev').
  rewrite Hc', Hs', forallb_app, Hev, Hev'. auto.
Qed.

Lemma wiki_only_call_search (query : string) :
  wiki_only World Session (call_search World Session wikipedia_search query).
Proof.
  intros st. unfold call_search.
  destruct (wikipedia_search query (world st)) as [r w]. repeat split.
Qed.

Lemma wiki_only_call_summary (title : string) :
  wiki_only World Session (call_summary World Session wikipedia_summary title).
Proof.
  intros st. unfold call_summary.
  destruct (wikipedia_summary title (world st)) as [r w]. repeat split.
Qed.

Lemma wiki_only_first {A : Type} (l : list A) :
  wiki_only World Session (first l).
Proof.
  unfold first. destruct (l !! 0%nat); [apply wiki_only_ret|apply wiki_only_raise].
Qed.

Create HintDb wiki.

#[local] Hint Resolve wiki_only_ret wiki_only_raise wiki_only_call_search
  wiki_only_call_summary wiki_only_first : wiki.

(** *** Lookup tool *)

Lemma search_wikipedia_wiki_only (query : string) :
  wiki_only World Session (search_wikipedia' query).
Proof.
  unfold search_wikipedia.
  apply wiki_only_try_except; [|auto with wiki].
  apply wiki_only_bind; [auto with wiki|].
  intros [|top others]; [auto with wiki|].
  apply wiki_only_try_except.
  - apply wiki_only_bind; auto with wiki.
  - intros []; auto with wiki.
    apply wiki_only_try_except; [|auto with wiki].
    apply wiki_only_bind; [auto with wiki|]. intros option0.
    apply wiki_only_bind; auto with wiki.
Qed.

Lemma search_wikipedia_first_event
    (query : string) (st : State World Session) :
  exists evs, events (search_wikipedia' query st) = WikipediaSearch query :: evs.
Proof.
  unfold search_wikipedia. rewrite try_except_run, bind_run.
  assert (Hev : events (call_search World Session wikipedia_search query st)
                = [WikipediaSearch query]).
  { unfold call_search. destruct (wikipedia_search query (world st)).
    reflexivity. }
  destruct (outcome (call_search World Session wikipedia_search query st))
    as [l|e]; cbn [outcome final events]; rewrite Hev.
  - match goal with
    | |- context [match ?o with Ok _ => _ | Raise _ => _ end] => destruct o
    end; eexists; reflexivity.
  - eexists; reflexivity.
Qed.

Lemma try_except_total {A : Type} (m : M World Session A)
    (handler : Exn -> M World Session A) (st : State World Session) :
  (forall e st', exists a, outcome (handler e st') = Ok a) ->
  exists a, outcome (try_except m handler st) = Ok a.
Proof.
  intros Hh. rewrite try_except_run.
  destruct (outcome (m st)) as [a|e] eqn:E; [eauto|]. apply Hh.
Qed.

Lemma search_wikipedia_returns (query : string) (st : State World Session) :
  exists s : string, outcome (search_wikipedia' query st) = Ok s.
Proof.
  unfold search_wikipedia. apply try_except_total.
  intros e st'. eexists. reflexivity.
Qed.

Lemma returns_only_ret {A : Type} (Q : A -> Prop) (a : A) :
  Q a -> returns_only World Session Q (ret a).
Proof. intros Ha st a' [= <-]. exact Ha. Qed.

Lemma returns_only_raise {A : Type} (Q : A -> Prop) (e : Exn) :
  returns_only World Session Q (raise e).
Proof. intros st a [=]. Qed.

Lemma returns_only_bind {A B : Type} (Q : B -> Prop)
    (m : M World Session A) (k : A -> M World Session B) :
  (forall a, returns_only World Session Q (k a)) ->
  returns_only World Session Q (bind m k).
Proof.
  intros Hk st b. rewrite bind_run.
  destruct (outcome (m st)) as [a|e]; cbn [outcome]; [apply Hk | discriminate].
Qed.

Lemma returns_only_try_except {A : Type} (Q : A -> Prop)
    (m : M World Session A) (handler : Exn -> M World Session A) :
  returns_only World Session Q m ->
  (forall e, returns_only World Session Q (handler e)) ->
  returns_only World Session Q (try_except m handler).
Proof.
  intros Hm Hh st a. rewrite try_except_run.
  destruct (outcome (m st)) as [a'|e] eqn:E; cbn [outcome].
  - rewrite E. intros [= <-]. exact (Hm st a' E).
  - apply Hh.
Qed.

Lemma search_wikipedia_texts (query : string) :
  returns_only World Session (lookup_text query) (search_wikipedia' query).
Proof.
  unfold search_wikipedia.
  apply returns_only_try_except;
    [|intros e; apply returns_only_ret; constructor].
  apply returns_only_bind. intros [|top others];
    [apply returns_only_ret; constructor|].
  apply returns_only_try_except.
  - apply returns_only_bind. intros summary.
    apply returns_only_ret; constructor.
  - intros []; try apply returns_only_raise.
    + apply returns_only_try_except.
      * apply returns_only_bind. intros option0.
        apply returns_only_bind. intros summary.
        apply returns_only_ret; constructor.
      * intros _. apply returns_only_ret; constructor.
    + apply returns_only_ret; constructor.
Qed.

(** C2. The lookup tool returns a string on every query and in every
    state of the outside world: whatever the two provider calls do
    (results, no results, disambiguation, missing page, any other
    exception), [search_wikipedia] does not raise, and the string is one
    of the five texts of its branches. *)
Theorem search_wikipedia_never_raises
    (query : string) (st : State World Session) :
  exists s : string,
    outcome (search_wikipedia' query st) = Ok s /\ lookup_text query s.
Proof.
  destruct (search_wikipedia_returns query st) as [s Hs].
  exists s. split; [assumption|].
  exact (search_wikipedia_texts query st s Hs).
Qed.

(** C4. When the summary of the top candidate raises a disambiguation
    error, the tool makes exactly one further summary call, on the first
    option; its summary is returned under that option's title, and if it
    raises (or there is no option to try) the first three candidate
    titles are returned as text.  The outcome is a string in every case. *)
Theorem disambiguation_retries_first_option
    (query top : string) (others options : list string) (msg : string)
    (st : State World Session) (w1 w2 : World) :
  wikipedia_search query (world st) = (Ok (top :: others), w1) ->
  wikipedia_summary top w1 = (Raise (DisambiguationError options msg), w2) ->
  let r := search_wikipedia' query st in
  let fallback :=
    "Found multiple articles. Top results: "
    +:+ join ", " (take 3 (top :: others)) in
  match options with
  | [] =>
      events r = [WikipediaSearch query; WikipediaSummary top]
      /\ outcome r = Ok fallback
  | option0 :: _ =>
      events r = [WikipediaSearch query; WikipediaSummary top;
                   WikipediaSummary option0]
      /\ outcome r =
           match fst (wikipedia_summary option0 w2) with
           | Ok summary =>
               Ok ("Wikipedia article on '" +:+ option0 +:+ "':"
                   +:+ newline +:+ newline +:+ summary)
           | Raise _ => Ok fallback
           end
  end.
Proof.
  intros Hsearch Hsummary.
  unfold search_wikipedia, try_except, bind, call_search, call_summary.
  rewrite Hsearch. cbn [world set_world]. rewrite Hsummary.
  destruct options as [|option0 rest]; cbn.
  - split; reflexivity.
  - destruct (wikipedia_summary option0 w2) as [[summary|e] w3]; cbn;
      split; reflexivity.
Qed.

(** *** Tool dispatch *)

Lemma process_tool_call_frame
    (function_name : string) (function_args : gmap string string)
    (st : State World Session) :
  let r := process_tool_call' function_name function_args st in
  (exists s, outcome r = Ok s)
  /\ conversation (final r) = conversation st
  /\ chat_session (final r) = chat_session st
  /\ exists evs, events r = ToolCall function_name function_args :: evs
                 /\ forallb is_wiki evs = true.
Proof.
  unfold process_tool_call. cbv zeta.
  rewrite (bind_ok _ _ st tt) by reflexivity. simpl.
  destruct (String.eqb function_name "search_wikipedia").
  - destruct (search_wikipedia_wiki_only
                (default "" (function_args !! "query")) st) as (Hc & Hs & Hev).
    destruct (search_wikipedia_returns
                (default "" (function_args !! "query")) st) as [s Hs'].
    repeat split; eauto.
  - simpl. repeat split; eauto.
Qed.

(** C7. For a tool name other than "search_wikipedia", and any argument
    mapping, [process_tool_call] returns the text "Unknown function: "
    followed by the name; it does not raise, calls no provider, and
    leaves the state as it was. *)
Theorem process_tool_call_unknown
    (function_name : string) (function_args : gmap string string)
    (st : State World Session) :
  function_name <> "search_wikipedia" ->
  let r := process_tool_call' function_name function_args st in
  outcome r = Ok ("Unknown function: " +:+ function_name)
  /\ events r = [ToolCall function_name function_args]
  /\ final r = st.
Proof.
  intros Hname. apply String.eqb_neq in Hname.
  unfold process_tool_call, bind, emit, ret. simpl.
  rewrite Hname. simpl. repeat split; reflexivity.
Qed.

(** C8. For the tool name "search_wikipedia" and an argument mapping
    without the key "query", [process_tool_call] runs the lookup tool on
    the empty string: outcome and final state are those of
    [search_wikipedia ""], and the first provider call is a search for
    the empty string. *)
Theorem process_tool_call_default_query
    (function_args : gmap string string) (st : State World Session) :
  function_args !! "query" = None ->
  let r := process_tool_call' "search_wikipedia" function_args st in
  let r0 := search_wikipedia' "" st in
  outcome r = outcome r0
  /\ final r = final r0
  /\ events r = ToolCall "search_wikipedia" function_args :: events r0
  /\ exists evs, events r0 = WikipediaSearch "" :: evs.
Proof.
  intros Hq. unfold process_tool_call. cbv zeta.
  rewrite (bind_ok _ _ st tt) by reflexivity. simpl.
  rewrite Hq. simpl. repeat split.
  apply search_wikipedia_first_event.
Qed.

(** *** Counting events *)

Lemma count_events_app (p : Event -> bool) (l1 l2 : list Event) :
  count_events p (l1 ++ l2) = count_events p l1 + count_events p l2.
Proof. unfold count_events. rewrite List.filter_app, length_app. reflexivity. Qed.

Lemma count_events_wiki (p : Event -> bool) (evs : list Event) :
  (forall e, is_wiki e = true -> p e = false) ->
  forallb is_wiki evs = true -> count_events p evs = 0.
Proof.
  intros Hp. unfold count_events.
  induction evs as [|e evs IH]; simpl; [reflexivity|].
  intros H. apply andb_prop in H as [He Hevs].
  rewrite (Hp e He). auto.
Qed.

Lemma tool_calls_wiki (evs : list Event) :
  forallb is_wiki evs = true -> tool_calls evs = 0.
Proof. apply count_events_wiki. intros []; simpl; congruence. Qed.

Lemma start_chats_wiki (evs : list Event) :
  forallb is_wiki evs = true -> count_events is_start_chat evs = 0.
Proof. apply count_events_wiki. intros []; simpl; congruence. Qed.

Lemma tool_calls_invocation
    (n : string) (a : gmap string string) (wevs : list Event) :
  forallb is_wiki wevs = true ->
  count_events is_tool_call (ToolCall n a :: wevs) = 1.
Proof.
  intros H. apply tool_calls_wiki in H. unfold tool_calls, count_events in *.
  simpl. rewrite H. reflexivity.
Qed.

Lemma start_chats_invocation
    (n : string) (a : gmap string string) (wevs : list Event) :
  forallb is_wiki wevs = true ->
  count_events is_start_chat (ToolCall n a :: wevs) = 0.
Proof.
  intros H. apply start_chats_wiki in H. unfold count_events in *.
  simpl. exact H.
Qed.

Lemma send_not_wiki (evs : list Event) (msg : Outgoing)
    (out : Outcome Response) :
  forallb is_wiki evs = true -> ~ In (SendMessage msg out) evs.
Proof.
  intros H Hin. rewrite forallb_forall in H. apply H in Hin. discriminate.
Qed.

(** *** Session calls *)

Lemma session_send_run (msg : Outgoing) (st : State World Session) :
  let r := session_send' msg st in
  conversation (final r) = conversation st
  /\ match chat_session st with
     | Some _ =>
         events r = [SendMessage msg (outcome r)]
         /\ exists s', chat_session (final r) = Some s'
     | None => events r = [] /\ exists e, outcome r = Raise e
     end.
Proof.
  unfold session_send. destruct (chat_session st) as [s|]; cbn.
  - destruct (send_message msg s (world st)) as [[out s'] w]; cbn. eauto.
  - eauto.
Qed.

Lemma ensure_session_run (st : State World Session) :
  let r := ensure_session World Session start_chat st in
  outcome r = Ok tt
  /\ conversation (final r) = conversation st
  /\ world (final r) = world st
  /\ match chat_session st with
     | Some s => events r = [] /\ final r = st
     | None =>
         events r = [StartChat (get_gemini_history (conversation st))]
         /\ chat_session (final r)
            = Some (start_chat (get_gemini_history (conversation st)))
     end.
Proof.
  unfold ensure_session. destruct (chat_session st); cbn; auto.
Qed.

Lemma first_parts_run (response : Response) (st : State World Session) :
  first_parts World Session response st =
    mkRun match candidates response with
          | [] => Raise (IndexError "list index out of range")
          | c :: _ => Ok (parts c)
          end st [].
Proof.
  unfold first_parts, first. destruct (candidates response); reflexivity.
Qed.

(** *** The tool-call loop *)

Lemma while_loop_exit (iteration : nat) (response : Response) :
  ~ iteration < max_iterations ->
  while_loop' iteration response = ret response.
Proof.
  intros Hge. rewrite while_loop_equation_1.
  destruct (lt_dec iteration max_iterations); [contradiction|].
  reflexivity.
Qed.

Lemma while_loop_enter (iteration : nat) (response : Response) :
  iteration < max_iterations ->
  while_loop' iteration response =
    bind (first_parts World Session response)
      (fun ps =>
         match ps with
         | [] => ret response
         | first_part :: _ =>
             match function_call first_part with
             | None => ret response
             | Some fc =>
                 if truthy (name fc)
                 then
                   bind (process_tool_call' (name fc) (args fc))
                     (fun function_result =>
                        bind (session_send'
                                (FunctionResponse (name fc) function_result))
                          (fun response' =>
                             while_loop' (iteration + 1) response'))
                 else ret response
             end
         end).
Proof.
  intros Hlt. rewrite while_loop_equation_1.
  destruct (lt_dec iteration max_iterations); [|contradiction].
  reflexivity.
Qed.

(** One turn of the loop either leaves without touching anything, or
    invokes one tool, submits its result and goes on with the answer. *)
Lemma while_loop_step
    (iteration : nat) (response : Response) (st : State World Session) :
  iteration < max_iterations ->
  (exists o, while_loop' iteration response st = mkRun o st [])
  \/ (exists fc res st1 wevs,
        process_tool_call' (name fc) (args fc) st
        = mkRun (Ok res) st1 (ToolCall (name fc) (args fc) :: wevs)
        /\ forallb is_wiki wevs = true
        /\ conversation st1 = conversation st
        /\ chat_session st1 = chat_session st
        /\ while_loop' iteration response st =
             let s := session_send' (FunctionResponse (name fc) res) st1 in
             match outcome s with
             | Ok response' =>
                 let r2 := while_loop' (iteration + 1) response' (final s) in
                 mkRun (outcome r2) (final r2)
                       ((ToolCall (name fc) (args fc) :: wevs)
                        ++ events s ++ events r2)
             | Raise e =>
                 mkRun (Raise e) (final s)
                       ((ToolCall (name fc) (args fc) :: wevs) ++ events s)
             end).
Proof.
  intros Hlt. rewrite (while_loop_enter _ _ Hlt).
  rewrite bind_run, first_parts_run. cbn [outcome final events].
  destruct (candidates response) as [|c cs]; [left; eauto|].
  destruct (parts c) as [|first_part ps]; [left; eauto|].
  destruct (function_call first_part) as [fc|]; [|left; eauto].
  destruct (truthy (name fc)); [|left; eauto].
  right.
  destruct (process_tool_call_frame (name fc) (args fc) st)
    as ([res Hres] & Hc & Hs & (wevs & Hev & Hwiki)).
  exists fc, res, (final (process_tool_call' (name fc) (args fc) st)), wevs.
  split; [|repeat split; auto].
  - rewrite <- Hres, <- Hev. symmetry. apply run_eta.
  - cbn [app]. rewrite bind_run, Hres, bind_run, Hev. cbv zeta.
    destruct (outcome (session_send' _ _)); cbn [outcome final events];
      rewrite <- ?app_assoc; reflexivity.
Qed.

(** Induction on the turns of the loop. *)
Lemma while_loop_induction
    (P : nat -> State World Session -> Run World Session Response -> Prop) :
  (forall i response st, ~ i < max_iterations -> P i st (mkRun (Ok response) st [])) ->
  (forall i st o, i < max_iterations -> P i st (mkRun o st [])) ->
  (forall i st fc res st1 wevs,
      i < max_iterations ->
      forallb is_wiki wevs = true ->
      conversation st1 = conversation st ->
      chat_session st1 = chat_session st ->
      let s := session_send' (FunctionResponse (name fc) res) st1 in
      (forall response',
          outcome s = Ok response' ->
          P (i + 1) (final s) (while_loop' (i + 1) response' (final s))) ->
      P i st
        match outcome s with
        | Ok response' =>
            let r2 := while_loop' (i + 1) response' (final s) in
            mkRun (outcome r2) (final r2)
                  ((ToolCall (name fc) (args fc) :: wevs)
                   ++ events s ++ events r2)
        | Raise e =>
            mkRun (Raise e) (final s)
                  ((ToolCall (name fc) (args fc) :: wevs) ++ events s)
        end) ->
  forall i response st, P i st (while_loop' i response st).
Proof.
  intros Hexit Hleave Hturn i.
  remember (max_iterations - i) as n eqn:Hn.
  revert i Hn. induction n as [|n IH]; intros i Hn response st.
  - rewrite while_loop_exit by lia. apply Hexit. lia.
  - assert (Hlt : i < max_iterations) by lia.
    destruct (while_loop_step i response st Hlt)
      as [[o Ho] | (fc & res & st1 & wevs & _ & Hwiki & Hc & Hs & Hrun)].
    + rewrite Ho. apply Hleave, Hlt.
    + rewrite Hrun. apply Hturn; auto.
      intros response' _. apply IH. lia.
Qed.

Lemma session_send_conversation (msg : Outgoing) (st : State World Session) :
  conversation (final (session_send' msg st)) = conversation st.
Proof. apply session_send_run. Qed.

Lemma session_send_events (msg : Outgoing) (st : State World Session) :
  events (session_send' msg st) = []
  \/ events (session_send' msg st)
     = [SendMessage msg (outcome (session_send' msg st))].
Proof.
  destruct (session_send_run msg st) as [_ H].
  destruct (chat_session st); destruct H; auto.
Qed.

Lemma session_send_tool_calls (msg : Outgoing) (st : State World Session) :
  tool_calls (events (session_send' msg st)) = 0.
Proof. destruct (session_send_events msg st) as [-> | ->]; reflexivity. Qed.

Lemma session_send_start_chats (msg : Outgoing) (st : State World Session) :
  count_events is_start_chat (events (session_send' msg st)) = 0.
Proof. destruct (session_send_events msg st) as [-> | ->]; reflexivity. Qed.

Lemma while_loop_conversation
    (iteration : nat) (response : Response) (st : State World Session) :
  conversation (final (while_loop' iteration response st)) = conversation st.
Proof.
  revert iteration response st.
  apply (while_loop_induction
           (fun _ st run => conversation (final run) = conversation st));
    try reflexivity.
  intros i st fc res st1 wevs _ _ Hc _ s IH.
  pose proof (session_send_conversation (FunctionResponse (name fc) res) st1)
    as Hs. fold s in Hs.
  destruct (outcome s) as [response'|e] eqn:E; cbn.
  - rewrite (IH response' eq_refl). congruence.
  - congruence.
Qed.

Lemma while_loop_tool_calls
    (iteration : nat) (response : Response) (st : State World Session) :
  tool_calls (events (while_loop' iteration response st))
  <= max_iterations - iteration.
Proof.
  revert iteration response st.
  apply (while_loop_induction
           (fun i _ run => tool_calls (events run) <= max_iterations - i));
    try (intros; cbn [events tool_calls count_events List.filter length]; lia).
  intros i st fc res st1 wevs Hlt Hwiki _ _ s IH.
  pose proof (session_send_tool_calls (FunctionResponse (name fc) res) st1)
    as Hs. fold s in Hs.
  pose proof (tool_calls_invocation (name fc) (args fc) wevs Hwiki) as Hw.
  unfold tool_calls in *.
  destruct (outcome s) as [response'|e] eqn:E; cbn [events];
    rewrite !count_events_app, Hs, Hw.
  - specialize (IH response' eq_refl). lia.
  - lia.
Qed.

Lemma while_loop_start_chats
    (iteration : nat) (response : Response) (st : State World Session) :
  count_events is_start_chat (events (while_loop' iteration response st)) = 0.
Proof.
  revert iteration response st.
  apply (while_loop_induction
           (fun _ _ run => count_events is_start_chat (events run) = 0));
    try reflexivity.
  intros i st fc res st1 wevs Hlt Hwiki _ _ s IH.
  pose proof (session_send_start_chats (FunctionResponse (name fc) res) st1)
    as Hs. fold s in Hs.
  pose proof (start_chats_invocation (name fc) (args fc) wevs Hwiki) as Hw.
  destruct (outcome s) as [response'|e] eqn:E; cbn [events];
    rewrite !count_events_app, Hs, Hw.
  - apply (IH response' eq_refl).
  - reflexivity.
Qed.

(** A submission that raises ends the loop with that exception. *)
Lemma while_loop_send_failure
    (iteration : nat) (response : Response) (st : State World Session)
    (msg : Outgoing) (e : Exn) :
  In (SendMessage msg (Raise e)) (events (while_loop' iteration response st)) ->
  outcome (while_loop' iteration response st) = Raise e.
Proof.
  revert iteration response st.
  apply (while_loop_induction
           (fun _ _ run => In (SendMessage msg (Raise e)) (events run) ->
                           outcome run = Raise e));
    try (intros; cbn in *; tauto).
  intros i st fc res st1 wevs Hlt Hwiki _ _ s IH.
  pose proof (session_send_events (FunctionResponse (name fc) res) st1)
    as Hs. fold s in Hs.
  assert (Hhead : ~ In (SendMessage msg (Raise e))
                       (ToolCall (name fc) (args fc) :: wevs)).
  { intros [Heq | Hin]; [discriminate|].
    exact (send_not_wiki _ _ _ Hwiki Hin). }
  destruct (outcome s) as [response'|e'] eqn:E; cbn [events outcome];
    intros Hin; apply in_app_or in Hin as [Hin | Hin]; try contradiction.
  - apply in_app_or in Hin as [Hin | Hin].
    + destruct Hs as [Hs | Hs]; rewrite Hs in Hin; cbn in Hin;
        [contradiction|]. destruct Hin as [Heq | []]. discriminate.
    + apply (IH response' eq_refl), Hin.
  - destruct Hs as [Hs | Hs]; rewrite Hs in Hin; cbn in Hin;
      [contradiction|]. destruct Hin as [Heq | []]. congruence.
Qed.

(** When the loop has used up all the turns left to it, its outcome is
    the outcome of its last submission, taken as it is. *)
Lemma while_loop_cap
    (iteration : nat) (response : Response) (st : State World Session) :
  is_Some (chat_session st) ->
  iteration < max_iterations ->
  tool_calls (events (while_loop' iteration response st))
  = max_iterations - iteration ->
  exists msg out,
    last (events (while_loop' iteration response st))
    = Some (SendMessage msg out)
    /\ outcome (while_loop' iteration response st) = out.
Proof.
  revert iteration response st.
  apply (while_loop_induction
           (fun i st run =>
              is_Some (chat_session st) -> i < max_iterations ->
              tool_calls (events run) = max_iterations - i ->
              exists msg out,
                last (events run) = Some (SendMessage msg out)
                /\ outcome run = out)).
  - intros; lia.
  - intros i st o Hlt _ _ Hn.
    change (tool_calls (events (mkRun o st []))) with 0 in Hn. lia.
  - intros i st fc res st1 wevs Hlt Hwiki _ Hsess s IH [s0 Hs0] _.
    destruct (session_send_run (FunctionResponse (name fc) res) st1)
      as [_ Hs]. fold s in Hs.
    rewrite Hsess, Hs0 in Hs. destruct Hs as [Hev Hsome].
    pose proof (tool_calls_invocation (name fc) (args fc) wevs Hwiki) as Hw.
    destruct (outcome s) as [response'|e] eqn:E; cbn [events outcome].
    + intros Hn.
      pose proof (while_loop_tool_calls (i + 1) response' (final s)) as Hle.
      unfold tool_calls in *.
      rewrite !count_events_app, Hw, Hev in Hn.
      change (count_events is_tool_call [SendMessage _ _]) with 0 in Hn.
      destruct (lt_dec (i + 1) max_iterations) as [Hlt' | Hge].
      * destruct (IH response' eq_refl) as (msg & out & Hlast & Hout);
          [destruct Hsome; eauto | assumption | lia |].
        exists msg, out. split; [|assumption].
        rewrite !last_app, Hlast. reflexivity.
      * rewrite (while_loop_exit _ _ Hge). unfold ret. cbn [events outcome].
        rewrite app_nil_r, Hev, last_app. cbn [last]. eauto.
    + intros _. rewrite Hev, last_app. cbn [last]. eauto.
Qed.

(** *** One call of [chat] *)

Lemma extract_final_text_run
    (response : Response) (st : State World Session) :
  final (extract_final_text' response st) = st
  /\ events (extract_final_text' response st) = [].
Proof.
  unfold extract_final_text.
  destruct (response_text response) as [t|e]; [split; reflexivity|].
  destruct (is_ValueError e); [|split; reflexivity].
  rewrite bind_run, first_parts_run. cbn [outcome final events].
  destruct (candidates response); split; reflexivity.
Qed.

Lemma extract_final_text_outcome
    (response : Response) (st st' : State World Session) :
  outcome (extract_final_text' response st)
  = outcome (extract_final_text' response st').
Proof.
  unfold extract_final_text.
  destruct (response_text response) as [t|e]; [reflexivity|].
  destruct (is_ValueError e); [|reflexivity].
  rewrite !bind_run, !first_parts_run. cbn [outcome final events].
  destruct (candidates response); reflexivity.
Qed.

Lemma resolve_run (user_message : string) (st : State World Session) :
  let e := ensure_session World Session start_chat st in
  let s := session_send' (UserText user_message) (final e) in
  resolve' user_message st =
    match outcome s with
    | Ok response =>
        let l := while_loop' 0 response (final s) in
        mkRun (outcome l) (final l) (events e ++ events s ++ events l)
    | Raise x => mkRun (Raise x) (final s) (events e ++ events s)
    end.
Proof.
  cbv zeta. unfold resolve.
  destruct (ensure_session_run st) as (Hok & _).
  rewrite (bind_ok _ _ st tt Hok). rewrite bind_run.
  destruct (outcome (session_send' _ _)); reflexivity.
Qed.

Lemma resolve_conversation (user_message : string) (st : State World Session) :
  conversation (final (resolve' user_message st)) = conversation st.
Proof.
  rewrite resolve_run. cbv zeta.
  destruct (ensure_session_run st) as (_ & Hc & _).
  pose proof (session_send_conversation (UserText user_message)
                (final (ensure_session World Session start_chat st))) as Hs.
  destruct (outcome (session_send' _ _)); cbn [final].
  - rewrite while_loop_conversation. congruence.
  - congruence.
Qed.

Lemma chat_run (user_message : string) (st : State World Session) :
  let r := resolve' user_message st in
  chat' user_message st =
    match outcome r with
    | Raise e => mkRun (Raise e) (final r) (events r)
    | Ok response =>
        match outcome (extract_final_text' response (final r)) with
        | Raise e => mkRun (Raise e) (final r) (events r)
        | Ok final_text =>
            mkRun (Ok final_text)
              (set_conversation World Session (final r)
                 (mkConversationHistory
                    (messages (conversation (final r))
                     ++ [mkMessage "user" user_message;
                         mkMessage "model" final_text])))
              (events r)
        end
    end.
Proof.
  cbv zeta. unfold chat. rewrite bind_run.
  destruct (outcome (resolve' user_message st)) as [response|e];
    [|reflexivity].
  rewrite bind_run.
  destruct (extract_final_text_run response (final (resolve' user_message st)))
    as [Hf Hev].
  rewrite Hf, Hev.
  destruct (outcome (extract_final_text' response _)) as [final_text|e];
    cbn [outcome final events]; rewrite ?app_nil_r; [|reflexivity].
  unfold add_message, bind, ret, set_conversation. cbn.
  rewrite <- app_assoc. reflexivity.
Qed.

Lemma chat_events (user_message : string) (st : State World Session) :
  events (chat' user_message st) = events (resolve' user_message st).
Proof.
  rewrite chat_run. cbv zeta.
  destruct (outcome (resolve' user_message st)) as [response|e];
    [|reflexivity].
  destruct (outcome (extract_final_text' response _)); reflexivity.
Qed.

(** What a call does to the transcript: two messages when it returns,
    nothing when it raises. *)
Lemma chat_transcript (user_message : string) (st : State World Session) :
  messages (conversation (final (chat' user_message st)))
  = messages (conversation st)
    ++ match outcome (chat' user_message st) with
       | Ok final_text =>
           [mkMessage "user" user_message; mkMessage "model" final_text]
       | Raise _ => []
       end.
Proof.
  rewrite chat_run. cbv zeta.
  pose proof (resolve_conversation user_message st) as Hc.
  destruct (outcome (resolve' user_message st)) as [response|e];
    cbn [outcome final]; [|rewrite Hc, app_nil_r; reflexivity].
  destruct (outcome (extract_final_text' response _)) as [final_text|e];
    cbn [outcome final conversation set_conversation messages];
    rewrite Hc, ?app_nil_r; reflexivity.
Qed.

Lemma resolve_send_failure
    (user_message : string) (st : State World Session)
    (msg : Outgoing) (e : Exn) :
  In (SendMessage msg (Raise e)) (events (resolve' user_message st)) ->
  outcome (resolve' user_message st) = Raise e.
Proof.
  rewrite resolve_run. cbv zeta.
  destruct (ensure_session_run st) as (_ & _ & _ & He).
  set (st1 := final (ensure_session World Session start_chat st)) in *.
  pose proof (session_send_events (UserText user_message) st1) as Hs.
  assert (Hinit : ~ In (SendMessage msg (Raise e))
                       (events (ensure_session World Session start_chat st))).
  { destruct (chat_session st); destruct He as [-> _]; cbn;
      intros H; [exact H | destruct H as [H | []]; discriminate]. }
  destruct (outcome (session_send' (UserText user_message) st1))
    as [response|x] eqn:E; cbn [events outcome]; intros Hin;
    apply in_app_or in Hin as [Hin | Hin]; try contradiction.
  - apply in_app_or in Hin as [Hin | Hin].
    + destruct Hs as [Hs | Hs]; rewrite Hs in Hin; cbn in Hin;
        [contradiction|]. destruct Hin as [Heq | []]. discriminate.
    + eapply while_loop_send_failure, Hin.
  - destruct Hs as [Hs | Hs]; rewrite Hs in Hin; cbn in Hin;
      [contradiction|]. destruct Hin as [Heq | []]. congruence.
Qed.

Lemma resolve_tool_calls (user_message : string) (st : State World Session) :
  tool_calls (events (resolve' user_message st)) <= max_iterations.
Proof.
  rewrite resolve_run. cbv zeta.
  destruct (ensure_session_run st) as (_ & _ & _ & He).
  set (st1 := final (ensure_session World Session start_chat st)) in *.
  pose proof (session_send_tool_calls (UserText user_message) st1) as Hs.
  assert (Hinit : tool_calls
                    (events (ensure_session World Session start_chat st)) = 0).
  { destruct (chat_session st); destruct He as [-> _]; reflexivity. }
  unfold tool_calls in *.
  destruct (outcome (session_send' (UserText user_message) st1))
    as [response|x]; cbn [events];
    rewrite !count_events_app, Hinit, Hs; [|lia].
  pose proof (while_loop_tool_calls 0 response
                (final (session_send' (UserText user_message) st1))) as Hl.
  unfold tool_calls in Hl. lia.
Qed.

Lemma resolve_cap (user_message : string) (st : State World Session) :
  tool_calls (events (resolve' user_message st)) = max_iterations ->
  exists msg out,
    last (events (resolve' user_message st)) = Some (SendMessage msg out)
    /\ outcome (resolve' user_message st) = out.
Proof.
  rewrite resolve_run. cbv zeta.
  destruct (ensure_session_run st) as (_ & _ & _ & He).
  set (st1 := final (ensure_session World Session start_chat st)) in *.
  pose proof (session_send_tool_calls (UserText user_message) st1) as Hs.
  assert (Hinit : tool_calls
                    (events (ensure_session World Session start_chat st)) = 0).
  { destruct (chat_session st); destruct He as [-> _]; reflexivity. }
  assert (Hsome : is_Some (chat_session st1)).
  { destruct (chat_session st) eqn:Hst; destruct He as [_ Hf].
    - subst st1. rewrite Hf, Hst. eauto.
    - rewrite Hf. eauto. }
  destruct (session_send_run (UserText user_message) st1) as [_ Hrun].
  destruct Hsome as [s0 Hs0]. rewrite Hs0 in Hrun.
  destruct Hrun as [_ Hsome'].
  unfold tool_calls in *.
  destruct (outcome (session_send' (UserText user_message) st1))
    as [response|x]; cbn [events outcome];
    rewrite !count_events_app, Hinit, Hs; intros Hn;
    [|unfold max_iterations in Hn; discriminate].
  destruct (while_loop_cap 0 response
              (final (session_send' (UserText user_message) st1)))
    as (msg & out & Hlast & Hout).
  - destruct Hsome' as [s' ->]. eauto.
  - unfold max_iterations. lia.
  - unfold tool_calls. lia.
  - exists msg, out. split; [|assumption].
    rewrite !last_app, Hlast. reflexivity.
Qed.

(** *** The claims about [chat] *)

(** C3. A call of [chat] makes at most five tool invocations, whatever
    the model answers.  When it makes five, the last thing it did was to
    submit the fifth result, and what that submission yielded is taken
    as final without being inspected: its text is extracted and
    returned, or its exception propagates.  A loop entered with the
    counter at the cap exits at once with the response it holds. *)
Theorem tool_calls_capped (user_message : string) (st : State World Session) :
  tool_calls (events (chat' user_message st)) <= 5
  /\ (tool_calls (events (chat' user_message st)) = 5 ->
      exists msg out,
        last (events (chat' user_message st)) = Some (SendMessage msg out)
        /\ outcome (chat' user_message st)
           = match out with
             | Ok response => outcome (extract_final_text' response st)
             | Raise e => Raise e
             end)
  /\ forall response, while_loop' 5 response st = mkRun (Ok response) st [].
Proof.
  rewrite chat_events. split; [apply resolve_tool_calls|]. split.
  - intros Hn. destruct (resolve_cap user_message st Hn)
      as (msg & out & Hlast & Hout).
    exists msg, out. split; [assumption|].
    rewrite chat_run. cbv zeta. rewrite Hout.
    destruct out as [response|e]; [|reflexivity].
    rewrite (extract_final_text_outcome response _ st).
    destruct (outcome (extract_final_text' response st)); reflexivity.
  - intros response. rewrite while_loop_exit; [reflexivity|].
    unfold max_iterations. lia.
Qed.

(** C5. If any [send_message] of a call of [chat] raises, the first one
    or a submission of a tool result, [chat] raises that same exception
    and the transcript is what it was before the call. *)
Theorem session_failure_propagates
    (user_message : string) (st : State World Session)
    (msg : Outgoing) (e : Exn) :
  In (SendMessage msg (Raise e)) (events (chat' user_message st)) ->
  outcome (chat' user_message st) = Raise e
  /\ conversation (final (chat' user_message st)) = conversation st.
Proof.
  rewrite chat_events. intros Hin.
  apply resolve_send_failure in Hin.
  rewrite chat_run. cbv zeta. rewrite Hin. cbn [outcome final].
  split; [reflexivity | apply resolve_conversation].
Qed.

(** *** Sequences of calls *)

Lemma alternates_app (user_turn : bool) (l1 l2 : list Message) :
  alternates user_turn (l1 ++ l2)
  = alternates user_turn l1
    && alternates (if Nat.even (length l1) then user_turn else negb user_turn)
                  l2.
Proof.
  revert user_turn. induction l1 as [|m l1 IH]; intros user_turn.
  - reflexivity.
  - cbn [app alternates length]. rewrite IH, Nat.even_succ, <- Nat.negb_even.
    destruct (Nat.even (length l1)); cbn [negb];
      rewrite ?negb_involutive, andb_assoc; reflexivity.
Qed.

Lemma alternates_turn (l : list Message) (user_message final_text : string) :
  alternates true l = true ->
  Nat.even (length l) = true ->
  alternates true
    (l ++ [mkMessage "user" user_message; mkMessage "model" final_text])
  = true.
Proof.
  intros Hl Heven. rewrite alternates_app, Hl, Heven. reflexivity.
Qed.

Lemma chat_all_transcript
    (user_messages : list string) (st : State World Session) :
  alternates true (messages (conversation st)) = true ->
  Nat.even (length (messages (conversation st))) = true ->
  let outs := fst (chat_all' user_messages st) in
  let st' := snd (chat_all' user_messages st) in
  length (messages (conversation st'))
  = length (messages (conversation st)) + 2 * successes outs
  /\ alternates true (messages (conversation st')) = true.
Proof.
  cbv zeta. revert st.
  induction user_messages as [|m rest IH]; intros st Halt Heven.
  - cbn. split; [lia | assumption].
  - cbn [chat_all].
    pose proof (chat_transcript m st) as Ht.
    destruct (chat_all' rest (final (chat' m st))) as [outs st'] eqn:Hrest.
    specialize (IH (final (chat' m st))). rewrite Hrest in IH.
    cbn [fst snd] in *. unfold successes in *. cbn [List.filter].
    destruct (outcome (chat' m st)) as [final_text|e]; cbn [succeeded length].
    + destruct IH as [Hlen Halt'].
      * rewrite Ht. apply alternates_turn; assumption.
      * rewrite Ht, length_app. cbn [length].
        rewrite Nat.add_comm. cbn [Nat.add Nat.even]. assumption.
      * split; [|assumption]. rewrite Hlen, Ht, length_app. cbn [length]. lia.
    + rewrite app_nil_r in Ht. rewrite Ht in IH. apply IH; assumption.
Qed.

(** C1. Starting from an empty transcript (a fresh or a reset agent),
    after any sequence of calls of [chat] of which N returned, the
    transcript holds exactly 2N messages and their roles alternate,
    beginning with "user". *)
Theorem transcript_two_messages_per_turn
    (user_messages : list string) (st : State World Session) :
  messages (conversation st) = [] ->
  let outs := fst (chat_all' user_messages st) in
  let st' := snd (chat_all' user_messages st) in
  length (messages (conversation st')) = 2 * successes outs
  /\ alternates true (messages (conversation st')) = true.
Proof.
  intros Hempty.
  pose proof (chat_all_transcript user_messages st) as H.
  rewrite Hempty in H. apply H; reflexivity.
Qed.

(** *** Transcript store *)

(** C6. For the roles "user" and "model" and any content,
    [add_message] returns normally, appends exactly that message and
    touches nothing else.  For every other role the [Message] model
    rejects the value: [add_message] raises a validation error and the
    state is what it was.  Clearing the store, which the agent does by
    installing a new [ConversationHistory], returns normally in every
    state and leaves an empty store.  None of them calls a collaborator. *)
Theorem append_and_clear_succeed
    (role content : string) (st : State World Session) :
  (role = "user" \/ role = "model" ->
   outcome (add_message' role content st) = Ok tt
   /\ messages (conversation (final (add_message' role content st)))
      = messages (conversation st) ++ [mkMessage role content]
   /\ chat_session (final (add_message' role content st)) = chat_session st
   /\ world (final (add_message' role content st)) = world st
   /\ events (add_message' role content st) = [])
  /\ (role <> "user" /\ role <> "model" ->
      outcome (add_message' role content st)
      = Raise (ValidationError "1 validation error for Message")
      /\ final (add_message' role content st) = st
      /\ events (add_message' role content st) = [])
  /\ (outcome (reset_conversation' st) = Ok tt
      /\ messages (conversation (final (reset_conversation' st))) = []
      /\ world (final (reset_conversation' st)) = world st
      /\ events (reset_conversation' st) = []).
Proof.
  split; [|split].
  - intros [-> | ->]; repeat split.
  - intros [Huser Hmodel].
    apply String.eqb_neq in Huser. apply String.eqb_neq in Hmodel.
    unfold add_message, Message_new. rewrite Huser, Hmodel.
    repeat split.
  - repeat split.
Qed.

(** C9. [reset_conversation] leaves an empty transcript and no session;
    the next call of [chat] then starts one session, seeded with the
    empty history, and sends the user's text to that session. *)
Theorem reset_starts_fresh_session
    (user_message : string) (st : State World Session) :
  let st1 := final (reset_conversation' st) in
  messages (conversation st1) = []
  /\ chat_session st1 = None
  /\ exists evs,
       events (chat' user_message st1)
       = StartChat []
         :: SendMessage (UserText user_message)
              (fst (fst (send_message (UserText user_message)
                           (start_chat []) (world st))))
         :: evs
       /\ count_events is_start_chat evs = 0.
Proof.
  cbv zeta. split; [reflexivity|]. split; [reflexivity|].
  rewrite chat_events, resolve_run. cbv zeta.
  unfold reset_conversation, ensure_session, session_send.
  cbn [final chat_session conversation world events set_chat_session
       ConversationHistory_new get_gemini_history messages map].
  destruct (send_message (UserText user_message) (start_chat []) (world st))
    as [[out s'] w]. cbn [fst outcome final events].
  destruct out as [response|e]; cbn [events app].
  - eexists. split; [reflexivity|]. apply while_loop_start_chats.
  - exists []. split; reflexivity.
Qed.

(** *** Final text *)

Lemma concat_text_none (ps : list Part) :
  forallb (fun p => negb (carries_text p)) ps = true ->
  concat_text ps = "".
Proof.
  unfold concat_text. generalize "" as acc.
  induction ps as [|p ps IH]; intros acc H; [reflexivity|].
  cbn [forallb] in H. apply andb_prop in H as [Hp Hps].
  cbn [fold_left]. unfold carries_text in Hp.
  destruct (text p) as [t|]; [|apply IH, Hps].
  destruct (truthy t); [discriminate | apply IH, Hps].
Qed.

(** C10. When the response held at the end of the loop has a first
    candidate, its [.text] raises [ValueError] and none of its parts
    carries a non-empty text, [chat] returns the empty string and appends
    the user message and a model message with empty content. *)
Theorem empty_text_turn_recorded
    (user_message : string) (st : State World Session)
    (response : Response) (c : Candidate) (cs : list Candidate)
    (msg : string) :
  outcome (resolve' user_message st) = Ok response ->
  response_text response = Raise (ValueError msg) ->
  candidates response = c :: cs ->
  forallb (fun p => negb (carries_text p)) (parts c) = true ->
  outcome (chat' user_message st) = Ok ""
  /\ messages (conversation (final (chat' user_message st)))
     = messages (conversation st)
       ++ [mkMessage "user" user_message; mkMessage "model" ""].
Proof.
  intros Hres Htext Hcand Hparts.
  assert (Hout : outcome (chat' user_message st) = Ok "").
  { rewrite chat_run. cbv zeta. rewrite Hres.
    unfold extract_final_text. rewrite Htext. cbn [is_ValueError].
    rewrite bind_run, first_parts_run, Hcand.
    cbn [outcome final events ret]. rewrite (concat_text_none _ Hparts).
    reflexivity. }
  split; [assumption|].
  rewrite chat_transcript, Hout. reflexivity.
Qed.

End Properties.

(** * The properties on the scripted collaborators *)

(** C1 on three calls, the second of which fails: four messages. *)
Lemma transcript_two_messages_per_turn_witness :
  let st := Scripted.fresh Scripted.three_calls in
  let calls := ["Who was Achilles?"; "And Hector?"; "And Hector?"] in
  messages (conversation st) = []
  /\ successes (fst (Scripted.run_chat_all calls st)) = 2
  /\ length (messages (conversation (snd (Scripted.run_chat_all calls st))))
     = 2 * successes (fst (Scripted.run_chat_all calls st))
  /\ alternates true
       (messages (conversation (snd (Scripted.run_chat_all calls st))))
     = true.
Proof.
  cbv zeta. split; [reflexivity|]. split; [reflexivity|].
  apply (transcript_two_messages_per_turn
           Scripted.wikipedia_search Scripted.wikipedia_summary
           Scripted.start_chat Scripted.send_message).
  reflexivity.
Defined.

(** C3 on a model that always asks for the tool: five invocations, and
    the sixth response is taken as final. *)
Lemma tool_calls_capped_witness :
  let r := Scripted.run_chat "Who was Achilles?"
             (Scripted.fresh Scripted.always_tool) in
  tool_calls (events r) = 5
  /\ exists msg out,
       last (events r) = Some (SendMessage msg out)
       /\ outcome r
          = match out with
            | Ok response =>
                outcome (extract_final_text Scripted.World Scripted.Session
                           response (Scripted.fresh Scripted.always_tool))
            | Raise e => Raise e
            end.
Proof.
  cbv zeta. split; [reflexivity|].
  apply (tool_calls_capped
           Scripted.wikipedia_search Scripted.wikipedia_summary
           Scripted.start_chat Scripted.send_message).
  reflexivity.
Defined.

(** C4 on the ambiguous title "Mercury". *)
Lemma disambiguation_retries_first_option_witness :
  let st := Scripted.fresh [] in
  Scripted.wikipedia_search "Mercury" (world st)
  = (Ok ["Mercury"; "Iliad"; "Odyssey"; "Troy"], [])
  /\ Scripted.wikipedia_summary "Mercury" []
     = (Raise (DisambiguationError ["Mercury (planet)"; "Mercury (element)"]
                 "Mercury may refer to"), [])
  /\ events (Scripted.search "Mercury" st)
     = [WikipediaSearch "Mercury"; WikipediaSummary "Mercury";
        WikipediaSummary "Mercury (planet)"]
  /\ outcome (Scripted.search "Mercury" st)
     = Ok ("Wikipedia article on 'Mercury (planet)':" +:+ newline +:+ newline
           +:+ "About Mercury (planet).").
Proof.
  cbv zeta. split; [reflexivity|]. split; [reflexivity|].
  apply (disambiguation_retries_first_option
           Scripted.wikipedia_search Scripted.wikipedia_summary
           "Mercury" "Mercury" ["Iliad"; "Odyssey"; "Troy"]
           ["Mercury (planet)"; "Mercury (element)"] "Mercury may refer to"
           (Scripted.fresh []) [] []); reflexivity.
Defined.

(** C5 on a session that fails when the tool result is submitted. *)
Lemma session_failure_propagates_witness :
  let st := Scripted.fresh Scripted.failing_submission in
  let r := Scripted.run_chat "Who was Achilles?" st in
  In (SendMessage
        (FunctionResponse "search_wikipedia" Scripted.achilles_article)
        (Raise (OtherError "503 Service Unavailable")))
     (events r)
  /\ outcome r = Raise (OtherError "503 Service Unavailable")
  /\ conversation (final r) = conversation st.
Proof.
  cbv zeta.
  assert (Hin : In (SendMessage
                      (FunctionResponse "search_wikipedia"
                         Scripted.achilles_article)
                      (Raise (OtherError "503 Service Unavailable")))
                   (events (Scripted.run_chat "Who was Achilles?"
                              (Scripted.fresh Scripted.failing_submission)))).
  { vm_compute. repeat (first [left; reflexivity | right]). }
  split; [exact Hin|].
  exact (session_failure_propagates
           Scripted.wikipedia_search Scripted.wikipedia_summary
           Scripted.start_chat Scripted.send_message
           "Who was Achilles?" (Scripted.fresh Scripted.failing_submission)
           _ _ Hin).
Defined.

(** C6: the role "system" is not one of the two literals of [Message]:
    the append raises and the store stays empty. *)
Lemma add_message_rejects_other_roles :
  outcome (Scripted.append "system" "You are Homer." (Scripted.fresh []))
  = Raise (ValidationError "1 validation error for Message")
  /\ messages (conversation
                 (final (Scripted.append "system" "You are Homer."
                           (Scripted.fresh []))))
     = [].
Proof. split; reflexivity. Qed.

(** C6 on the role "model", which is appended, and on the role
    "assistant", which is refused. *)
Lemma append_and_clear_succeed_witness :
  let st := Scripted.fresh [] in
  (("model" = "user" \/ "model" = "model")
   /\ outcome (Scripted.append "model" "Sing, O Muse." st) = Ok tt
   /\ messages (conversation (final (Scripted.append "model" "Sing, O Muse." st)))
      = [mkMessage "model" "Sing, O Muse."])
  /\ (("assistant" <> "user" /\ "assistant" <> "model")
      /\ outcome (Scripted.append "assistant" "Sing, O Muse." st)
         = Raise (ValidationError "1 validation error for Message")
      /\ final (Scripted.append "assistant" "Sing, O Muse." st) = st).
Proof.
  cbv zeta. split.
  - split; [right; reflexivity|].
    destruct (proj1 (append_and_clear_succeed "model" "Sing, O Muse."
                       (Scripted.fresh [])) (or_intror eq_refl))
      as (Hok & Hmsgs & _).
    split; [exact Hok | exact Hmsgs].
  - assert (Hother : "assistant" <> "user" /\ "assistant" <> "model")
      by (split; discriminate).
    split; [exact Hother|].
    destruct (proj1 (proj2 (append_and_clear_succeed "assistant"
                              "Sing, O Muse." (Scripted.fresh []))) Hother)
      as (Hraise & Hsame & _).
    split; [exact Hraise | exact Hsame].
Defined.

(** C7 on the name "foo". *)
Lemma process_tool_call_unknown_witness :
  "foo" <> "search_wikipedia"
  /\ outcome (Scripted.tool "foo" Scripted.achilles (Scripted.fresh []))
     = Ok "Unknown function: foo".
Proof.
  assert (Hname : "foo" <> "search_wikipedia") by discriminate.
  split; [exact Hname|].
  exact (proj1 (process_tool_call_unknown
                  Scripted.wikipedia_search Scripted.wikipedia_summary
                  "foo" Scripted.achilles (Scripted.fresh []) Hname)).
Defined.

(** C8 on the empty argument mapping: the search is for "", which these
    providers answer with no results. *)
Lemma process_tool_call_default_query_witness :
  (∅ : gmap string string) !! "query" = None
  /\ outcome (Scripted.tool "search_wikipedia" ∅ (Scripted.fresh []))
     = Ok "No results found for '' on Wikipedia."
  /\ events (Scripted.tool "search_wikipedia" ∅ (Scripted.fresh []))
     = [ToolCall "search_wikipedia" ∅; WikipediaSearch ""].
Proof.
  assert (Hq : (∅ : gmap string string) !! "query" = None) by reflexivity.
  split; [exact Hq|].
  destruct (process_tool_call_default_query
              Scripted.wikipedia_search Scripted.wikipedia_summary
              ∅ (Scripted.fresh []) Hq) as (Hout & _ & Hev & _).
  split; [exact Hout | exact Hev].
Defined.

(** C10 on a first response without parts whose [.text] raises. *)
Lemma empty_text_turn_recorded_witness :
  let st := Scripted.fresh [Ok Scripted.no_text] in
  outcome (Scripted.run_chat "Sing." st) = Ok ""
  /\ messages (conversation (final (Scripted.run_chat "Sing." st)))
     = [mkMessage "user" "Sing."; mkMessage "model" ""].
Proof.
  cbv zeta.
  apply (empty_text_turn_recorded
           Scripted.wikipedia_search Scripted.wikipedia_summary
           Scripted.start_chat Scripted.send_message
           "Sing." (Scripted.fresh [Ok Scripted.no_text])
           Scripted.no_text (mkCandidate []) [] "no parts");
    reflexivity.
Defined.

(** * Further properties of the agent *)

Section MoreProperties.

Context {World Session : Type}.
Context (wikipedia_search : string -> World -> Outcome (list string) * World).
Context (wikipedia_summary : string -> World -> Outcome string * World).
Context (start_chat : list HistoryEntry -> Session).
Context (send_message :
  Outgoing -> Session -> World -> Outcome Response * Session * World).

Local Abbreviation search_wikipedia' :=
  (search_wikipedia World Session wikipedia_search wikipedia_summary).
Local Abbreviation process_tool_call' :=
  (process_tool_call World Session wikipedia_search wikipedia_summary).
Local Abbreviation session_send' := (session_send World Session send_message).
Local Abbreviation while_loop' :=
  (while_loop World Session wikipedia_search wikipedia_summary send_message).
Local Abbreviation resolve' :=
  (resolve World Session wikipedia_search wikipedia_summary start_chat
     send_message).
Local Abbreviation chat' :=
  (chat World Session wikipedia_search wikipedia_summary start_chat
     send_message).
Local Abbreviation chat_all' :=
  (chat_all World Session wikipedia_search wikipedia_summary start_chat
     send_message).
Local Abbreviation extract_final_text' := (extract_final_text World Session).

Ltac unfold_search :=
  unfold search_wikipedia, try_except, bind, call_search, call_summary.

Ltac calls_done :=
  eexists; split; [reflexivity|]; split; [reflexivity | cbn; lia].

(** ** Lookup tool, branch by branch *)

(** X1. The lookup tool first searches for the query, and after that it
    fetches at most two summaries and calls nothing else: at most three
    provider calls for one lookup. *)
Theorem search_wikipedia_provider_calls
    (query : string) (st : State World Session) :
  exists evs,
    events (search_wikipedia' query st) = WikipediaSearch query :: evs
    /\ forallb is_summary evs = true
    /\ length evs <= 2.
Proof.
  unfold_search.
  destruct (wikipedia_search query (world st)) as [[[|top others]|e] w];
    cbn; try solve [calls_done].
  destruct (wikipedia_summary top w) as [[summary|[options msg| | | | | | |]] w2];
    cbn; try solve [calls_done].
  destruct options as [|option0 rest]; cbn; try solve [calls_done].
  destruct (wikipedia_summary option0 w2) as [[summary|e] w3]; cbn;
    calls_done.
Qed.

(** X2. When the search finds nothing, the lookup tool returns the text
    "No results found for '<query>' on Wikipedia." and fetches no
    summary. *)
Theorem search_wikipedia_no_results
    (query : string) (st : State World Session) (w1 : World) :
  wikipedia_search query (world st) = (Ok [], w1) ->
  outcome (search_wikipedia' query st)
  = Ok ("No results found for '" +:+ query +:+ "' on Wikipedia.")
  /\ events (search_wikipedia' query st) = [WikipediaSearch query]
  /\ world (final (search_wikipedia' query st)) = w1.
Proof.
  intros Hsearch. unfold_search. rewrite Hsearch. cbn. repeat split.
Qed.

(** X3. When the summary of the top candidate is fetched, the lookup
    tool returns it under that candidate's title, after one search and
    one summary call; the other candidates are not looked at. *)
Theorem search_wikipedia_article
    (query top summary : string) (others : list string)
    (st : State World Session) (w1 w2 : World) :
  wikipedia_search query (world st) = (Ok (top :: others), w1) ->
  wikipedia_summary top w1 = (Ok summary, w2) ->
  outcome (search_wikipedia' query st)
  = Ok ("Wikipedia article on '" +:+ top +:+ "':"
        +:+ newline +:+ newline +:+ summary)
  /\ events (search_wikipedia' query st)
     = [WikipediaSearch query; WikipediaSummary top].
Proof.
  intros Hsearch Hsummary. unfold_search.
  rewrite Hsearch. cbn [world set_world]. rewrite Hsummary. cbn.
  split; reflexivity.
Qed.

(** X4. When the summary of the top candidate raises a page error, the
    lookup tool returns "Could not retrieve page for '<query>'.", naming
    the query and not the candidate, and tries no other candidate. *)
Theorem search_wikipedia_page_error
    (query top msg : string) (others : list string)
    (st : State World Session) (w1 w2 : World) :
  wikipedia_search query (world st) = (Ok (top :: others), w1) ->
  wikipedia_summary top w1 = (Raise (PageError msg), w2) ->
  outcome (search_wikipedia' query st)
  = Ok ("Could not retrieve page for '" +:+ query +:+ "'.")
  /\ events (search_wikipedia' query st)
     = [WikipediaSearch query; WikipediaSummary top].
Proof.
  intros Hsearch Hsummary. unfold_search.
  rewrite Hsearch. cbn [world set_world]. rewrite Hsummary. cbn.
  split; reflexivity.
Qed.

(** X5. When the search itself raises, whatever the exception, the
    lookup tool returns "Error searching Wikipedia: " followed by the
    exception's text and fetches no summary. *)
Theorem search_wikipedia_search_fails
    (query : string) (e : Exn) (st : State World Session) (w1 : World) :
  wikipedia_search query (world st) = (Raise e, w1) ->
  outcome (search_wikipedia' query st)
  = Ok ("Error searching Wikipedia: " +:+ str e)
  /\ events (search_wikipedia' query st) = [WikipediaSearch query].
Proof.
  intros Hsearch. unfold_search. rewrite Hsearch. cbn. split; reflexivity.
Qed.

(** X6. When the summary of the top candidate raises something that is
    neither a disambiguation nor a page error, the lookup tool returns
    "Error searching Wikipedia: " followed by the exception's text, with
    no retry. *)
Theorem search_wikipedia_summary_fails
    (query top : string) (others : list string) (e : Exn)
    (st : State World Session) (w1 w2 : World) :
  wikipedia_search query (world st) = (Ok (top :: others), w1) ->
  wikipedia_summary top w1 = (Raise e, w2) ->
  (forall options msg, e <> DisambiguationError options msg) ->
  (forall msg, e <> PageError msg) ->
  outcome (search_wikipedia' query st)
  = Ok ("Error searching Wikipedia: " +:+ str e)
  /\ events (search_wikipedia' query st)
     = [WikipediaSearch query; WikipediaSummary top].
Proof.
  intros Hsearch Hsummary Hdis Hpage. unfold_search.
  rewrite Hsearch. cbn [world set_world]. rewrite Hsummary.
  destruct e as [options msg|msg| | | | | |]; cbn;
    try (split; reflexivity).
  - destruct (Hdis options msg eq_refl).
  - destruct (Hpage msg eq_refl).
Qed.

(** ** Tool dispatch *)

(** X7. [process_tool_call] returns a string for every tool name and
    argument mapping, and changes neither the transcript nor the
    session attribute. *)
Theorem process_tool_call_never_raises
    (function_name : string) (function_args : gmap string string)
    (st : State World Session) :
  (exists s, outcome (process_tool_call' function_name function_args st) = Ok s)
  /\ conversation (final (process_tool_call' function_name function_args st))
     = conversation st
  /\ chat_session (final (process_tool_call' function_name function_args st))
     = chat_session st.
Proof.
  destruct (process_tool_call_frame wikipedia_search wikipedia_summary
              function_name function_args st) as (Hs & Hc & Hsess & _).
  auto.
Qed.

(** X8. For the tool name "search_wikipedia" and an argument mapping
    that holds a query, [process_tool_call] runs the lookup tool on that
    query, whatever else the mapping holds. *)
Theorem process_tool_call_passes_query
    (function_args : gmap string string) (query : string)
    (st : State World Session) :
  function_args !! "query" = Some query ->
  outcome (process_tool_call' "search_wikipedia" function_args st)
  = outcome (search_wikipedia' query st)
  /\ final (process_tool_call' "search_wikipedia" function_args st)
     = final (search_wikipedia' query st)
  /\ events (process_tool_call' "search_wikipedia" function_args st)
     = ToolCall "search_wikipedia" function_args
       :: events (search_wikipedia' query st).
Proof.
  intros Hq. unfold process_tool_call.
  rewrite (bind_ok _ _ st tt) by reflexivity. simpl.
  rewrite Hq. simpl. repeat split.
Qed.

(** ** The loop, read through [requested_tool] *)

Lemma while_loop_no_request
    (iteration : nat) (response : Response) (st : State World Session) :
  requested_tool response = Ok None ->
  while_loop' iteration response st = mkRun (Ok response) st [].
Proof.
  intros Hreq. destruct (lt_dec iteration max_iterations) as [Hlt | Hge];
    [|rewrite (while_loop_exit _ _ _ _ _ Hge); reflexivity].
  rewrite (while_loop_enter _ _ _ _ _ Hlt), bind_run, first_parts_run.
  unfold requested_tool in Hreq. cbn [outcome final events].
  destruct (candidates response) as [|c cs]; [discriminate|].
  destruct (parts c) as [|first_part ps]; [reflexivity|].
  destruct (function_call first_part) as [fc|]; [|reflexivity].
  destruct (truthy (name fc)); [discriminate | reflexivity].
Qed.

Lemma while_loop_no_candidate
    (iteration : nat) (response : Response) (st : State World Session) :
  iteration < max_iterations ->
  candidates response = [] ->
  while_loop' iteration response st
  = mkRun (Raise (IndexError "list index out of range")) st [].
Proof.
  intros Hlt Hcand.
  rewrite (while_loop_enter _ _ _ _ _ Hlt), bind_run, first_parts_run, Hcand.
  reflexivity.
Qed.

Lemma while_loop_request
    (iteration : nat) (response : Response) (fc : FunctionCall)
    (st : State World Session) :
  iteration < max_iterations ->
  requested_tool response = Ok (Some fc) ->
  while_loop' iteration response st
  = bind (process_tool_call' (name fc) (args fc))
      (fun function_result =>
         bind (session_send' (FunctionResponse (name fc) function_result))
           (fun response' => while_loop' (iteration + 1) response')) st.
Proof.
  intros Hlt Hreq.
  rewrite (while_loop_enter _ _ _ _ _ Hlt), bind_run, first_parts_run.
  unfold requested_tool in Hreq. cbn [outcome final events].
  destruct (candidates response) as [|c cs]; [discriminate|].
  destruct (parts c) as [|first_part ps]; [discriminate|].
  destruct (function_call first_part) as [fc'|]; [|discriminate].
  destruct (truthy (name fc')); [|discriminate].
  injection Hreq as ->. cbn [app].
  match goal with |- mkRun (outcome ?r) (final ?r) (events ?r) = _ =>
    apply run_eta end.
Qed.

Lemma sends_wiki (evs : list Event) :
  forallb is_wiki evs = true -> count_events is_send evs = 0.
Proof. apply count_events_wiki. intros []; simpl; congruence. Qed.

Lemma while_loop_session
    (iteration : nat) (response : Response) (st : State World Session) :
  is_Some (chat_session st) ->
  is_Some (chat_session (final (while_loop' iteration response st))).
Proof.
  revert iteration response st.
  apply (while_loop_induction wikipedia_search wikipedia_summary send_message
           (fun _ st run =>
              is_Some (chat_session st) -> is_Some (chat_session (final run))));
    try (intros; assumption).
  intros i st fc res st1 wevs _ _ _ Hsess s IH [s0 Hs0].
  destruct (session_send_run send_message (FunctionResponse (name fc) res) st1)
    as [_ Hs]. fold s in Hs. rewrite Hsess, Hs0 in Hs.
  destruct Hs as [_ [s' Hs']].
  destruct (outcome s) as [response'|e] eqn:E; cbn [final].
  - apply (IH response' eq_refl). rewrite Hs'. eauto.
  - rewrite Hs'. eauto.
Qed.

Lemma while_loop_sends
    (iteration : nat) (response : Response) (st : State World Session) :
  is_Some (chat_session st) ->
  count_events is_send (events (while_loop' iteration response st))
  = tool_calls (events (while_loop' iteration response st)).
Proof.
  revert iteration response st.
  apply (while_loop_induction wikipedia_search wikipedia_summary send_message
           (fun _ st run =>
              is_Some (chat_session st) ->
              count_events is_send (events run) = tool_calls (events run)));
    try (intros; reflexivity).
  intros i st fc res st1 wevs _ Hwiki _ Hsess s IH [s0 Hs0].
  destruct (session_send_run send_message (FunctionResponse (name fc) res) st1)
    as [_ Hs]. fold s in Hs. rewrite Hsess, Hs0 in Hs.
  destruct Hs as [Hev [s' Hs']].
  pose proof (tool_calls_invocation (name fc) (args fc) wevs Hwiki) as Hw.
  pose proof (sends_wiki wevs Hwiki) as Hw'.
  assert (Hhead : count_events is_send (ToolCall (name fc) (args fc) :: wevs)
                  = 0) by exact Hw'.
  unfold tool_calls in *.
  destruct (outcome s) as [response'|e] eqn:E; cbn [events];
    rewrite !count_events_app, Hhead, Hw, Hev;
    change (count_events is_send [SendMessage _ _]) with 1;
    change (count_events is_tool_call [SendMessage _ _]) with 0.
  - rewrite (IH response' eq_refl); [lia|]. rewrite Hs'. eauto.
  - lia.
Qed.

(** ** One call of [chat], on an established session *)

Lemma resolve_established
    (user_message : string) (st : State World Session) (s s1 : Session)
    (out : Outcome Response) (w1 : World) :
  chat_session st = Some s ->
  send_message (UserText user_message) s (world st) = (out, s1, w1) ->
  resolve' user_message st =
    match out with
    | Ok response =>
        let l := while_loop' 0 response
                   (mkState (conversation st) (Some s1) w1) in
        mkRun (outcome l) (final l)
              (SendMessage (UserText user_message) (Ok response) :: events l)
    | Raise e =>
        mkRun (Raise e) (mkState (conversation st) (Some s1) w1)
              [SendMessage (UserText user_message) (Raise e)]
    end.
Proof.
  intros Hs Hsend. rewrite resolve_run. cbv zeta.
  unfold ensure_session, session_send. rewrite Hs.
  cbn [final events chat_session world conversation]. rewrite Hs, Hsend.
  destruct out; reflexivity.
Qed.

(** X9. A call of [chat] on an agent that holds a session starts no
    new one: its first action is to send the user's text to the session
    it holds. *)
Theorem chat_reuses_session
    (user_message : string) (st : State World Session) (s : Session) :
  chat_session st = Some s ->
  count_events is_start_chat (events (chat' user_message st)) = 0
  /\ exists evs,
       events (chat' user_message st)
       = SendMessage (UserText user_message)
           (fst (fst (send_message (UserText user_message) s (world st))))
         :: evs.
Proof.
  intros Hs. rewrite chat_events.
  destruct (send_message (UserText user_message) s (world st))
    as [[out s1] w1] eqn:Hsend.
  rewrite (resolve_established _ _ _ _ _ _ Hs Hsend). cbn [fst].
  destruct out as [response|e]; cbn [events].
  - split; [|eauto].
    change (count_events is_start_chat (?e :: ?l))
      with (count_events is_start_chat l).
    apply while_loop_start_chats.
  - split; [reflexivity | eauto].
Qed.

(** X10. After a call of [chat] the agent holds a session, whether the
    call returned or raised; a failed turn does not drop the session. *)
Theorem chat_keeps_session
    (user_message : string) (st : State World Session) :
  is_Some (chat_session (final (chat' user_message st))).
Proof.
  assert (Hres : is_Some (chat_session (final (resolve' user_message st)))).
  { rewrite resolve_run. cbv zeta.
    destruct (ensure_session_run start_chat st) as (_ & _ & _ & He).
    set (st1 := final (ensure_session World Session start_chat st)) in *.
    assert (Hsome : is_Some (chat_session st1)).
    { destruct (chat_session st) eqn:Hst; destruct He as [_ Hf].
      - subst st1. rewrite Hf, Hst. eauto.
      - rewrite Hf. eauto. }
    destruct (session_send_run send_message (UserText user_message) st1)
      as [_ Hrun].
    destruct Hsome as [s0 Hs0]. rewrite Hs0 in Hrun.
    destruct Hrun as [_ [s' Hs']].
    destruct (outcome (session_send' (UserText user_message) st1));
      cbn [final].
    - apply while_loop_session. rewrite Hs'. eauto.
    - rewrite Hs'. eauto. }
  rewrite chat_run. cbv zeta.
  destruct (outcome (resolve' user_message st)) as [response|e];
    [|exact Hres].
  destruct (outcome (extract_final_text' response _)); exact Hres.
Qed.

(** X11. In a call of [chat] every tool invocation is followed by one
    submission to the session: the number of [send_message] calls is one
    more than the number of tool invocations, so at most six. *)
Theorem chat_sends_once_per_tool_call
    (user_message : string) (st : State World Session) :
  count_events is_send (events (chat' user_message st))
  = 1 + tool_calls (events (chat' user_message st))
  /\ count_events is_send (events (chat' user_message st)) <= 6.
Proof.
  assert (Heq : count_events is_send (events (chat' user_message st))
                = 1 + tool_calls (events (chat' user_message st))).
  { rewrite chat_events, resolve_run. cbv zeta.
    destruct (ensure_session_run start_chat st) as (_ & _ & _ & He).
    set (st1 := final (ensure_session World Session start_chat st)) in *.
    assert (Hsome : is_Some (chat_session st1)).
    { destruct (chat_session st) eqn:Hst; destruct He as [_ Hf].
      - subst st1. rewrite Hf, Hst. eauto.
      - rewrite Hf. eauto. }
    assert (Hinit : count_events is_send
                      (events (ensure_session World Session start_chat st)) = 0
                    /\ tool_calls
                         (events (ensure_session World Session start_chat st))
                       = 0).
    { destruct (chat_session st); destruct He as [-> _]; split; reflexivity. }
    destruct Hinit as [Hi1 Hi2].
    destruct (session_send_run send_message (UserText user_message) st1)
      as [_ Hrun].
    destruct Hsome as [s0 Hs0]. rewrite Hs0 in Hrun.
    destruct Hrun as [Hev [s' Hs']].
    unfold tool_calls in *.
    destruct (outcome (session_send' (UserText user_message) st1));
      cbn [events]; rewrite !count_events_app, Hi1, Hi2, Hev;
      change (count_events is_send [SendMessage _ _]) with 1;
      change (count_events is_tool_call [SendMessage _ _]) with 0.
    - rewrite while_loop_sends; [unfold tool_calls; lia|].
      rewrite Hs'. eauto.
    - lia. }
  split; [exact Heq|]. rewrite Heq.
  pose proof (resolve_tool_calls wikipedia_search wikipedia_summary start_chat
                send_message user_message st) as Hle.
  rewrite chat_events. unfold max_iterations in Hle. lia.
Qed.

Lemma resolve_first_send
    (user_message : string) (st : State World Session) (s1 : Session)
    (out : Outcome Response) (w1 : World) :
  send_message (UserText user_message)
    (session_in_use World Session start_chat st) (world st)
  = (out, s1, w1) ->
  resolve' user_message st =
    match out with
    | Ok response =>
        let l := while_loop' 0 response
                   (mkState (conversation st) (Some s1) w1) in
        mkRun (outcome l) (final l)
              (events (ensure_session World Session start_chat st)
               ++ SendMessage (UserText user_message) (Ok response)
                  :: events l)
    | Raise e =>
        mkRun (Raise e) (mkState (conversation st) (Some s1) w1)
              (events (ensure_session World Session start_chat st)
               ++ [SendMessage (UserText user_message) (Raise e)])
    end.
Proof.
  intros Hsend. rewrite resolve_run. cbv zeta.
  unfold ensure_session, session_send, session_in_use in *.
  destruct (chat_session st) as [s|] eqn:Hs;
    cbn [final events chat_session world conversation set_chat_session];
    rewrite ?Hs, Hsend; destruct out; reflexivity.
Qed.

(** X12. When the first part of the first response is not a tool call
    (no part, no [function_call], or an empty name) and the response has
    a text, [chat] sends once, invokes no tool, returns that text and
    appends the two messages; later parts are not inspected.  This holds
    on an agent that holds a session and on one that does not, which
    first starts one. *)
Theorem chat_plain_answer
    (user_message final_text : string) (st : State World Session)
    (s1 : Session) (response : Response) (w1 : World) :
  send_message (UserText user_message)
    (session_in_use World Session start_chat st) (world st)
  = (Ok response, s1, w1) ->
  requested_tool response = Ok None ->
  response_text response = Ok final_text ->
  chat' user_message st
  = mkRun (Ok final_text)
      (mkState
         (mkConversationHistory
            (messages (conversation st)
             ++ [mkMessage "user" user_message; mkMessage "model" final_text]))
         (Some s1) w1)
      (events (ensure_session World Session start_chat st)
       ++ [SendMessage (UserText user_message) (Ok response)]).
Proof.
  intros Hsend Hreq Htext. rewrite chat_run. cbv zeta.
  rewrite (resolve_first_send _ _ _ _ _ Hsend). cbv zeta.
  rewrite (while_loop_no_request _ _ _ Hreq). cbn [outcome final events].
  unfold extract_final_text. rewrite Htext. reflexivity.
Qed.

(** X13. When the first response has no candidate, [chat] raises
    [IndexError] at the first inspection: no tool is invoked, nothing
    more is sent, and the transcript is not touched.  This holds whether
    or not the agent held a session. *)
Theorem chat_no_candidate
    (user_message : string) (st : State World Session)
    (s1 : Session) (response : Response) (w1 : World) :
  send_message (UserText user_message)
    (session_in_use World Session start_chat st) (world st)
  = (Ok response, s1, w1) ->
  candidates response = [] ->
  chat' user_message st
  = mkRun (Raise (IndexError "list index out of range"))
      (mkState (conversation st) (Some s1) w1)
      (events (ensure_session World Session start_chat st)
       ++ [SendMessage (UserText user_message) (Ok response)]).
Proof.
  intros Hsend Hcand. rewrite chat_run. cbv zeta.
  rewrite (resolve_first_send _ _ _ _ _ Hsend). cbv zeta.
  rewrite while_loop_no_candidate;
    [reflexivity | unfold max_iterations; lia | assumption].
Qed.

(** X14. When the first response asks for a tool, [chat] invokes
    [process_tool_call] with the name and arguments of the request and
    then submits a function response that carries that same name and the
    string the tool returned; for a name other than "search_wikipedia"
    that string is "Unknown function: " followed by the name.  This
    holds whether or not the agent held a session. *)
Theorem chat_submits_tool_result
    (user_message : string) (st : State World Session)
    (s1 : Session) (response : Response) (w1 : World) (fc : FunctionCall) :
  send_message (UserText user_message)
    (session_in_use World Session start_chat st) (world st)
  = (Ok response, s1, w1) ->
  requested_tool response = Ok (Some fc) ->
  let t := process_tool_call' (name fc) (args fc)
             (mkState (conversation st) (Some s1) w1) in
  exists function_result evs,
    outcome t = Ok function_result
    /\ (name fc <> "search_wikipedia" ->
        function_result = "Unknown function: " +:+ name fc)
    /\ events (chat' user_message st)
       = events (ensure_session World Session start_chat st)
         ++ SendMessage (UserText user_message) (Ok response)
         :: events t
         ++ SendMessage (FunctionResponse (name fc) function_result)
              (fst (fst (send_message
                           (FunctionResponse (name fc) function_result)
                           s1 (world (final t)))))
            :: evs.
Proof.
  intros Hsend Hreq. cbv zeta.
  set (st1 := mkState (conversation st) (Some s1) w1).
  destruct (process_tool_call_frame wikipedia_search wikipedia_summary
              (name fc) (args fc) st1) as ([res Hres] & _ & Hsess & _).
  exists res.
  assert (Hunknown : name fc <> "search_wikipedia" ->
                     res = "Unknown function: " +:+ name fc).
  { intros Hname. apply String.eqb_neq in Hname.
    unfold process_tool_call, bind, emit, ret in Hres.
    rewrite Hname in Hres. cbn in Hres. congruence. }
  rewrite chat_events, (resolve_first_send _ _ _ _ _ Hsend). cbv zeta.
  fold st1. rewrite while_loop_request with (fc := fc);
    [|unfold max_iterations; lia | assumption].
  rewrite (bind_ok _ _ st1 res Hres). cbn [outcome final events].
  rewrite bind_run.
  assert (Hrun : session_send' (FunctionResponse (name fc) res)
                   (final (process_tool_call' (name fc) (args fc) st1))
                 = let '(r, s', w) :=
                     send_message (FunctionResponse (name fc) res) s1
                       (world (final (process_tool_call' (name fc) (args fc)
                                        st1))) in
                   mkRun r
                     (mkState
                        (conversation
                           (final (process_tool_call' (name fc) (args fc)
                                     st1)))
                        (Some s') w)
                     [SendMessage (FunctionResponse (name fc) res) r]).
  { unfold session_send. rewrite Hsess. reflexivity. }
  rewrite Hrun.
  destruct (send_message (FunctionResponse (name fc) res) s1
              (world (final (process_tool_call' (name fc) (args fc) st1))))
    as [[out s2] w2]. cbn [outcome final events fst].
  destruct out as [response'|e]; cbn [events]; eexists;
    (split; [exact Hres | split; [exact Hunknown | reflexivity]]).
Qed.

(** ** Final text *)

Lemma string_app_nil_r (s : string) : s +:+ "" = s.
Proof.
  induction s as [|a s IH]; [reflexivity|].
  change (String a (s +:+ "") = String a s). rewrite IH. reflexivity.
Qed.

Lemma string_app_assoc (s1 s2 s3 : string) :
  (s1 +:+ s2) +:+ s3 = s1 +:+ (s2 +:+ s3).
Proof.
  induction s1 as [|a s1 IH]; [reflexivity|].
  change (String a ((s1 +:+ s2) +:+ s3) = String a (s1 +:+ (s2 +:+ s3))).
  rewrite IH. reflexivity.
Qed.

Lemma part_texts_cons (p : Part) (ps : list Part) :
  part_texts (p :: ps) = default "" (text p) +:+ part_texts ps.
Proof.
  unfold part_texts. cbn [map String.concat].
  destruct (map _ ps) as [|x xs] eqn:E; cbn [String.concat].
  - rewrite string_app_nil_r. reflexivity.
  - reflexivity.
Qed.

Lemma concat_text_part_texts (ps : list Part) :
  concat_text ps = part_texts ps.
Proof.
  unfold concat_text.
  enough (H : forall acc,
             fold_left
               (fun final_text part =>
                  match text part with
                  | Some t => if truthy t then final_text +:+ t else final_text
                  | None => final_text
                  end) ps acc
             = acc +:+ part_texts ps) by apply (H "").
  induction ps as [|p ps IH]; intros acc.
  - cbn. rewrite string_app_nil_r. reflexivity.
  - cbn [fold_left]. rewrite IH, part_texts_cons, <- string_app_assoc.
    f_equal. destruct (text p) as [[|a t]|]; cbn [default truthy];
      rewrite ?string_app_nil_r; reflexivity.
Qed.

(** X15. When [.text] of the response held at the end raises
    [ValueError], [chat] returns the texts of the parts of the first
    candidate joined in order with nothing between them; parts without
    text, tool calls among them, contribute nothing. *)
Theorem chat_fallback_text
    (user_message : string) (st : State World Session)
    (response : Response) (c : Candidate) (cs : list Candidate)
    (msg : string) :
  outcome (resolve' user_message st) = Ok response ->
  response_text response = Raise (ValueError msg) ->
  candidates response = c :: cs ->
  outcome (chat' user_message st) = Ok (part_texts (parts c)).
Proof.
  intros Hres Htext Hcand. rewrite chat_run. cbv zeta. rewrite Hres.
  unfold extract_final_text. rewrite Htext. cbn [is_ValueError].
  rewrite bind_run, first_parts_run, Hcand.
  cbn [outcome final events ret]. rewrite concat_text_part_texts.
  reflexivity.
Qed.

(** X16. When [.text] of the response held at the end raises an
    exception that [except ValueError] does not catch, one that is
    neither a [ValueError] nor of a subclass of it, [chat] raises that
    exception and the transcript is what it was before the call. *)
Theorem chat_text_failure_propagates
    (user_message : string) (st : State World Session)
    (response : Response) (e : Exn) :
  outcome (resolve' user_message st) = Ok response ->
  response_text response = Raise e ->
  is_ValueError e = false ->
  outcome (chat' user_message st) = Raise e
  /\ conversation (final (chat' user_message st)) = conversation st.
Proof.
  intros Hres Htext Hother. rewrite chat_run. cbv zeta. rewrite Hres.
  unfold extract_final_text. rewrite Htext, Hother.
  cbn [outcome final raise].
  split; [reflexivity | apply resolve_conversation].
Qed.

(** X17. A call of [chat] that returns leaves the transcript it found
    with the user's text and the returned text appended, in that order;
    a call that raises, for whatever reason, leaves the transcript as it
    found it. *)
Theorem chat_records_what_it_returns
    (user_message : string) (st : State World Session) :
  match outcome (chat' user_message st) with
  | Ok final_text =>
      conversation (final (chat' user_message st))
      = mkConversationHistory
          (messages (conversation st)
           ++ [mkMessage "user" user_message; mkMessage "model" final_text])
  | Raise _ => conversation (final (chat' user_message st)) = conversation st
  end.
Proof.
  rewrite chat_run. cbv zeta.
  pose proof (resolve_conversation wikipedia_search wikipedia_summary
                start_chat send_message user_message st) as Hc.
  destruct (outcome (resolve' user_message st)) as [response|e];
    cbn [outcome final]; [|exact Hc].
  destruct (outcome (extract_final_text' response _)) as [final_text|e];
    cbn [outcome final conversation set_conversation]; [|exact Hc].
  rewrite Hc. reflexivity.
Qed.

(** ** Exchange format *)

(** X18. After a call of [chat] that returned, the exchange-format
    history is the one before the call followed by a "user" record with
    the user's text and a "model" record with the returned text, each
    with a single part. *)
Theorem history_after_chat
    (user_message final_text : string) (st : State World Session) :
  outcome (chat' user_message st) = Ok final_text ->
  get_gemini_history (conversation (final (chat' user_message st)))
  = get_gemini_history (conversation st)
    ++ [mkHistoryEntry "user" [user_message];
        mkHistoryEntry "model" [final_text]].
Proof.
  intros Hout. unfold get_gemini_history.
  rewrite chat_transcript, Hout, map_app. reflexivity.
Qed.

(** ** Sequences of calls *)

(** X20. After any sequence of calls of [chat], from any state, there is
    one outcome per call, and the transcript is the one at the start
    followed, for each call that returned and in the order of the calls,
    by the user's text and the text returned; earlier messages are never
    changed or removed. *)
Theorem chat_all_appends_turns
    (user_messages : list string) (st : State World Session) :
  length (fst (chat_all' user_messages st)) = length user_messages
  /\ messages (conversation (snd (chat_all' user_messages st)))
     = messages (conversation st)
       ++ turns user_messages (fst (chat_all' user_messages st)).
Proof.
  revert st. induction user_messages as [|m rest IH]; intros st.
  - cbn. rewrite app_nil_r. split; reflexivity.
  - cbn [chat_all].
    pose proof (chat_transcript wikipedia_search wikipedia_summary start_chat
                  send_message m st) as Ht.
    specialize (IH (final (chat' m st))).
    destruct (chat_all' rest (final (chat' m st))) as [outs st'].
    cbn [fst snd length] in *. destruct IH as [Hlen Hmsgs].
    split; [rewrite Hlen; reflexivity|].
    rewrite Hmsgs, Ht.
    destruct (outcome (chat' m st)) as [final_text|e]; cbn [turns].
    + rewrite <- app_assoc. reflexivity.
    + rewrite app_nil_r. reflexivity.
Qed.

End MoreProperties.

(** ** Properties that need no collaborator *)

(** X19. The exchange format loses nothing: two transcripts with the
    same exchange-format history are the same transcript. *)
Theorem get_gemini_history_injective (c1 c2 : ConversationHistory) :
  get_gemini_history c1 = get_gemini_history c2 -> c1 = c2.
Proof.
  destruct c1 as [l1], c2 as [l2]. unfold get_gemini_history. cbn [messages].
  intros H. f_equal. revert l2 H.
  induction l1 as [|[r1 t1] l1 IH]; intros [|[r2 t2] l2] H;
    cbn in H; try discriminate; [reflexivity|].
  injection H as -> -> H. f_equal. apply IH, H.
Qed.

(** X21. The credential check of the constructor: it raises
    [ValueError] exactly when neither the argument nor the environment
    gives a non-empty key, an empty argument counting as absent; when it
    passes, the agent starts with an empty transcript and no session. *)
Theorem HomericAgent_new_credential
    {World Session : Type} (api_key getenv : option string) (w : World) :
  HomericAgent_new World Session api_key getenv w
  = if usable api_key || usable getenv
    then Ok (mkState ConversationHistory_new None w)
    else Raise (ValueError "GEMINI_API_KEY environment variable must be set").
Proof.
  unfold HomericAgent_new, usable.
  destruct api_key as [[|a k]|], getenv as [[|b k']|]; reflexivity.
Qed.

(** X22. Whatever the agent has been through, [reset_conversation]
    brings it to the state of a newly constructed agent in the same
    world, so resetting twice is the same as resetting once. *)
Theorem reset_is_fresh
    {World Session : Type} (key : string) (getenv : option string)
    (st : State World Session) :
  truthy key = true ->
  HomericAgent_new World Session (Some key) getenv (world st)
  = Ok (final (reset_conversation World Session st))
  /\ reset_conversation World Session
       (final (reset_conversation World Session st))
     = reset_conversation World Session st.
Proof.
  intros Hkey. unfold HomericAgent_new, reset_conversation.
  destruct key as [|a k]; [discriminate|]. split; reflexivity.
Qed.

(** * The further properties on the scripted collaborators *)

(** X2 on the empty query, for which the scripted search finds nothing. *)
Lemma search_wikipedia_no_results_witness :
  Scripted.wikipedia_search "" (world (Scripted.fresh [])) = (Ok [], [])
  /\ outcome (Scripted.search "" (Scripted.fresh []))
     = Ok "No results found for '' on Wikipedia."
  /\ events (Scripted.search "" (Scripted.fresh [])) = [WikipediaSearch ""].
Proof.
  split; [reflexivity|].
  destruct (search_wikipedia_no_results
              Scripted.wikipedia_search Scripted.wikipedia_summary
              "" (Scripted.fresh []) [] eq_refl) as (Hout & Hev & _).
  split; [exact Hout | exact Hev].
Defined.

(** X3 on "Achilles". *)
Lemma search_wikipedia_article_witness :
  Scripted.wikipedia_search "Achilles" (world (Scripted.fresh []))
  = (Ok ["Achilles"; "Iliad"; "Odyssey"; "Troy"], [])
  /\ Scripted.wikipedia_summary "Achilles" [] = (Ok "About Achilles.", [])
  /\ outcome (Scripted.search "Achilles" (Scripted.fresh []))
     = Ok Scripted.achilles_article.
Proof.
  split; [reflexivity|]. split; [reflexivity|].
  exact (proj1 (search_wikipedia_article
                  Scripted.wikipedia_search Scripted.wikipedia_summary
                  "Achilles" "Achilles" "About Achilles."
                  ["Iliad"; "Odyssey"; "Troy"] (Scripted.fresh []) [] []
                  eq_refl eq_refl)).
Defined.

(** X4 on "Atlantis", whose page the scripted provider does not have. *)
Lemma search_wikipedia_page_error_witness :
  Scripted.wikipedia_search "Atlantis" (world (Scripted.fresh []))
  = (Ok ["Atlantis"; "Iliad"; "Odyssey"; "Troy"], [])
  /\ Scripted.wikipedia_summary "Atlantis" [] = (Raise (PageError "no page"), [])
  /\ outcome (Scripted.search "Atlantis" (Scripted.fresh []))
     = Ok "Could not retrieve page for 'Atlantis'.".
Proof.
  split; [reflexivity|]. split; [reflexivity|].
  exact (proj1 (search_wikipedia_page_error
                  Scripted.wikipedia_search Scripted.wikipedia_summary
                  "Atlantis" "Atlantis" "no page"
                  ["Iliad"; "Odyssey"; "Troy"] (Scripted.fresh []) [] []
                  eq_refl eq_refl)).
Defined.

(** X5 on a search that times out. *)
Lemma search_wikipedia_search_fails_witness :
  Scripted.wikipedia_search "offline" (world (Scripted.fresh []))
  = (Raise (OtherError "timed out"), [])
  /\ outcome (Scripted.search "offline" (Scripted.fresh []))
     = Ok "Error searching Wikipedia: timed out".
Proof.
  split; [reflexivity|].
  exact (proj1 (search_wikipedia_search_fails
                  Scripted.wikipedia_search Scripted.wikipedia_summary
                  "offline" (OtherError "timed out") (Scripted.fresh []) []
                  eq_refl)).
Defined.

(** X6 on a summary provider that is rate limited. *)
Lemma search_wikipedia_summary_fails_witness :
  Scripted.wikipedia_search "Achilles" (world (Scripted.fresh []))
  = (Ok ["Achilles"; "Iliad"; "Odyssey"; "Troy"], [])
  /\ Cases.limited_summary "Achilles" []
     = (Raise (OtherError "429 Too Many Requests"), [])
  /\ outcome (Cases.limited_search "Achilles" (Scripted.fresh []))
     = Ok "Error searching Wikipedia: 429 Too Many Requests".
Proof.
  split; [reflexivity|]. split; [reflexivity|].
  refine (proj1 (search_wikipedia_summary_fails
                   Scripted.wikipedia_search Cases.limited_summary
                   "Achilles" "Achilles" ["Iliad"; "Odyssey"; "Troy"]
                   (OtherError "429 Too Many Requests") (Scripted.fresh [])
                   [] [] eq_refl eq_refl _ _)); discriminate.
Defined.

(** X8 on the argument mapping with the query "Achilles". *)
Lemma process_tool_call_passes_query_witness :
  Scripted.achilles !! "query" = Some "Achilles"
  /\ outcome (Scripted.tool "search_wikipedia" Scripted.achilles
                (Scripted.fresh []))
     = outcome (Scripted.search "Achilles" (Scripted.fresh [])).
Proof.
  assert (Hq : Scripted.achilles !! "query" = Some "Achilles") by reflexivity.
  split; [exact Hq|].
  exact (proj1 (process_tool_call_passes_query
                  Scripted.wikipedia_search Scripted.wikipedia_summary
                  Scripted.achilles "Achilles" (Scripted.fresh []) Hq)).
Defined.

(** X9 on an agent that holds a session. *)
Lemma chat_reuses_session_witness :
  let st := Cases.established [Ok (Scripted.plain "O mortal.")] in
  chat_session st = Some []
  /\ count_events is_start_chat (events (Scripted.run_chat "Sing." st)) = 0.
Proof.
  cbv zeta. split; [reflexivity|].
  exact (proj1 (chat_reuses_session
                  Scripted.wikipedia_search Scripted.wikipedia_summary
                  Scripted.start_chat Scripted.send_message "Sing."
                  (Cases.established [Ok (Scripted.plain "O mortal.")]) []
                  eq_refl)).
Defined.

(** X12 on a new agent and a response whose second part is a tool
    call: a session is started, and the tool call is ignored. *)
Lemma chat_plain_answer_witness :
  let st := Scripted.fresh [Ok Cases.answer_then_request] in
  requested_tool Cases.answer_then_request = Ok None
  /\ outcome (Scripted.run_chat "Sing." st) = Ok "O mortal."
  /\ events (Scripted.run_chat "Sing." st)
     = [StartChat [];
        SendMessage (UserText "Sing.") (Ok Cases.answer_then_request)].
Proof.
  cbv zeta. split; [reflexivity|].
  pose proof (chat_plain_answer
                Scripted.wikipedia_search Scripted.wikipedia_summary
                Scripted.start_chat Scripted.send_message
                "Sing." "O mortal."
                (Scripted.fresh [Ok Cases.answer_then_request])
                [] Cases.answer_then_request []
                eq_refl eq_refl eq_refl) as H.
  unfold Scripted.run_chat. rewrite H. split; reflexivity.
Defined.

(** X13 on a new agent and a response without candidates. *)
Lemma chat_no_candidate_witness :
  let st := Scripted.fresh [Ok Cases.blocked] in
  candidates Cases.blocked = []
  /\ outcome (Scripted.run_chat "Sing." st)
     = Raise (IndexError "list index out of range")
  /\ conversation (final (Scripted.run_chat "Sing." st)) = conversation st.
Proof.
  cbv zeta. split; [reflexivity|].
  pose proof (chat_no_candidate
                Scripted.wikipedia_search Scripted.wikipedia_summary
                Scripted.start_chat Scripted.send_message
                "Sing." (Scripted.fresh [Ok Cases.blocked])
                [] Cases.blocked []
                eq_refl eq_refl) as H.
  unfold Scripted.run_chat. rewrite H. split; reflexivity.
Defined.

(** X14 on a new agent and a request for the unknown tool "foo": the
    text "Unknown function: foo" is what the session receives. *)
Lemma chat_submits_tool_result_witness :
  let st := Scripted.fresh [Ok (Scripted.tool_request "foo" ∅)] in
  requested_tool (Scripted.tool_request "foo" ∅)
  = Ok (Some (mkFunctionCall "foo" ∅))
  /\ exists evs,
       events (Scripted.run_chat "Sing." st)
       = StartChat []
         :: SendMessage (UserText "Sing.")
              (Ok (Scripted.tool_request "foo" ∅))
         :: ToolCall "foo" ∅
         :: SendMessage (FunctionResponse "foo" "Unknown function: foo")
              (Ok (Scripted.plain "Sing, O Muse."))
         :: evs.
Proof.
  cbv zeta. split; [reflexivity|].
  destruct (chat_submits_tool_result
              Scripted.wikipedia_search Scripted.wikipedia_summary
              Scripted.start_chat Scripted.send_message
              "Sing." (Scripted.fresh [Ok (Scripted.tool_request "foo" ∅)])
              [] (Scripted.tool_request "foo" ∅) []
              (mkFunctionCall "foo" ∅) eq_refl eq_refl)
    as (function_result & evs & _ & Hunknown & Hev).
  assert (Hname : name (mkFunctionCall "foo" ∅) <> "search_wikipedia")
    by discriminate.
  rewrite (Hunknown Hname) in Hev.
  exists evs. exact Hev.
Defined.

(** X15 on two text parts around a tool call. *)
Lemma chat_fallback_text_witness :
  let st := Scripted.fresh [Ok Cases.two_texts] in
  outcome (Scripted.run_chat "Sing." st) = Ok "Sing, O Muse.".
Proof.
  cbv zeta.
  exact (chat_fallback_text
           Scripted.wikipedia_search Scripted.wikipedia_summary
           Scripted.start_chat Scripted.send_message
           "Sing." (Scripted.fresh [Ok Cases.two_texts]) Cases.two_texts
           _ [] _ eq_refl eq_refl eq_refl).
Defined.

(** X16 on a response whose [.text] raises [AttributeError]. *)
Lemma chat_text_failure_propagates_witness :
  let st := Scripted.fresh [Ok Cases.broken_text] in
  outcome (Scripted.run_chat "Sing." st) = Raise (AttributeError "text")
  /\ conversation (final (Scripted.run_chat "Sing." st)) = conversation st.
Proof.
  cbv zeta.
  refine (chat_text_failure_propagates
            Scripted.wikipedia_search Scripted.wikipedia_summary
            Scripted.start_chat Scripted.send_message
            "Sing." (Scripted.fresh [Ok Cases.broken_text]) Cases.broken_text
            (AttributeError "text") eq_refl eq_refl eq_refl).
Defined.

(** X18 on a plain turn. *)
Lemma history_after_chat_witness :
  let st := Scripted.fresh [Ok (Scripted.plain "O mortal.")] in
  outcome (Scripted.run_chat "Sing." st) = Ok "O mortal."
  /\ get_gemini_history (conversation (final (Scripted.run_chat "Sing." st)))
     = [mkHistoryEntry "user" ["Sing."]; mkHistoryEntry "model" ["O mortal."]].
Proof.
  cbv zeta. split; [reflexivity|].
  exact (history_after_chat
           Scripted.wikipedia_search Scripted.wikipedia_summary
           Scripted.start_chat Scripted.send_message
           "Sing." "O mortal."
           (Scripted.fresh [Ok (Scripted.plain "O mortal.")]) eq_refl).
Defined.

(** X19 on a transcript of one turn. *)
Lemma get_gemini_history_injective_witness :
  let c := mkConversationHistory
             [mkMessage "user" "Sing."; mkMessage "model" "O mortal."] in
  get_gemini_history c = get_gemini_history c /\ c = c.
Proof.
  cbv zeta. split; [reflexivity|].
  exact (get_gemini_history_injective _ _ eq_refl).
Defined.

(** X22 on an agent after one turn. *)
Lemma reset_is_fresh_witness :
  let st := final (Scripted.run_chat "Sing."
                     (Scripted.fresh [Ok (Scripted.plain "O mortal.")])) in
  truthy "key" = true
  /\ HomericAgent_new Scripted.World Scripted.Session (Some "key") None
       (world st)
     = Ok (Scripted.fresh []).
Proof.
  cbv zeta. split; [reflexivity|].
  exact (proj1 (reset_is_fresh "key" None
                  (final (Scripted.run_chat "Sing."
                            (Scripted.fresh [Ok (Scripted.plain "O mortal.")])))
                  eq_refl)).
Defined.
